(** * import-analyzer: module resolution, usage collection and
      reconciliation of [__all__], embedded from [src/import-analyzer.py].

    The script is modelled by explicit state passing.  Python sets and
    dicts are stdpp [gset]s and [gmap]s, the file system is a finite map
    from path text to file contents together with a set of directories,
    and an uncaught Python exception is an [exn] returned next to the
    state reached when it was raised.  A string is the sequence of the
    bytes of its UTF-8 text. *)

From Stdlib Require Import ZArith Ascii String List Sorted.
Set Warnings "-clear-no-such-hyp".
From stdpp Require Import base option list strings gmap sets pretty.

Open Scope string_scope.

(** ** Python [str] and [os.path] operations used by the script *)

Module PyStr.

(** [s.startswith(p)] *)
Fixpoint startswith (p s : string) : bool :=
  match p, s with
  | EmptyString, _ => true
  | String a p', String b s' => if Ascii.eqb a b then startswith p' s' else false
  | String _ _, EmptyString => false
  end.

(** [s.endswith(p)] *)
Definition endswith (p s : string) : bool :=
  startswith (String.rev p) (String.rev s).

(** [s[n:]] for [0 <= n] *)
Fixpoint drop_str (n : nat) (s : string) : string :=
  match n, s with
  | O, _ => s
  | S n', String _ s' => drop_str n' s'
  | S _, EmptyString => EmptyString
  end.

(** [s.split(c)] for a separator [c] of one character; never empty. *)
Fixpoint split_on (c : ascii) (s : string) : list string :=
  match s with
  | EmptyString => [EmptyString]
  | String a s' =>
      if Ascii.eqb a c then EmptyString :: split_on c s'
      else match split_on c s' with
           | h :: t => String a h :: t
           | [] => [String a EmptyString]
           end
  end.

(** [s.replace(a, b)] for one-character [a] and [b] *)
Fixpoint replace_char (a b : ascii) (s : string) : string :=
  match s with
  | EmptyString => EmptyString
  | String c s' => String (if Ascii.eqb c a then b else c) (replace_char a b s')
  end.

(** [s.rstrip("/")] *)
Fixpoint rstrip_sep (s : string) : string :=
  match s with
  | EmptyString => EmptyString
  | String c s' =>
      match rstrip_sep s' with
      | EmptyString => if Ascii.eqb c "/" then EmptyString else String c EmptyString
      | r => String c r
      end
  end.

(** [s == "/" * len(s)] *)
Fixpoint all_sep (s : string) : bool :=
  match s with
  | EmptyString => true
  | String c s' => Ascii.eqb c "/" && all_sep s'
  end.

(** [(p[:i], p[i:])] with [i = p.rfind("/") + 1] *)
Fixpoint cut_last_sep (p : string) : string * string :=
  match p with
  | EmptyString => (EmptyString, EmptyString)
  | String c p' =>
      let '(h, t) := cut_last_sep p' in
      if Ascii.eqb c "/" then (String c h, t)
      else match h with
           | EmptyString => (EmptyString, String c t)
           | _ => (String c h, t)
           end
  end.

(** One step of [posixpath.join]: [b] replaces [a] when [b] is absolute
    or [a] is empty, is appended when [a] ends with the separator, and
    is appended after a separator otherwise. *)
Definition join2 (a b : string) : string :=
  if startswith "/" b || String.eqb a "" then b
  else if endswith "/" a then a ++ b
  else a ++ "/" ++ b.

(** [os.path.join(a, *p)] *)
Definition join (a : string) (p : list string) : string :=
  fold_left join2 p a.

(** The head that [posixpath.split] and [posixpath.dirname] return:
    trailing separators are stripped unless the head is all separators. *)
Definition strip_head (head : string) : string :=
  if negb (String.eqb head "") && negb (all_sep head) then rstrip_sep head
  else head.

(** [os.path.split(p)] *)
Definition split (p : string) : string * string :=
  let '(head, tail) := cut_last_sep p in (strip_head head, tail).

(** [os.path.dirname(p)] *)
Definition dirname (p : string) : string :=
  strip_head (fst (cut_last_sep p)).

(** [x in l] for a list of strings *)
Definition mem (x : string) (l : list string) : bool :=
  existsb (String.eqb x) l.

(** [sorted(l)] on strings: insertion into an ordered list by the
    lexicographic order of the characters, which on UTF-8 text is the
    order of the code points that Python compares. *)
Fixpoint insert_sorted (x : string) (l : list string) : list string :=
  match l with
  | [] => [x]
  | y :: l' => if String.leb x y then x :: l else y :: insert_sorted x l'
  end.

Definition sorted (l : list string) : list string :=
  foldr insert_sorted [] l.

End PyStr.

(** ** Syntax trees, as much of [ast] as the script inspects *)

(** The value of an [ast.Constant]: a string, an integer or [None]
    (the other kinds of constant are not represented). *)
Inductive constant :=
| CStr (s : string)
| CInt (z : Z)
| CNone.

#[global] Instance constant_eq_dec : EqDecision constant.
Proof. solve_decision. Defined.

#[global] Instance constant_countable : Countable constant.
Proof.
  refine (inj_countable'
    (fun c => match c with
              | CStr s => inl s
              | CInt z => inr (Some z)
              | CNone => inr None
              end)
    (fun x => match x with
              | inl s => CStr s
              | inr (Some z) => CInt z
              | inr None => CNone
              end) _).
  by intros [].
Defined.

(** The induction principle of a type nested in [list] carries the
    hypothesis for every element of the list. *)
Scheme All for list.

Module Ast.

(** [ast.alias] *)
Record alias := Alias { name : string; asname : option string }.

(** Every node class that [handleStatement] tells apart, with the
    fields it reads.  [NoneNode] is Python's [None] in an optional
    child; [Other] is a node of any class without a branch of its own. *)
Inductive node :=
| NoneNode
| Import (names : list alias)
| ImportFrom (module : option string) (names : list alias)
| Name (id : string)
| Pass | Break | Continue | Delete
| Constant (value : constant)
| JoinedStr | Slice | Global
| Assign (targets : list node) (value : node)
| AugAssign (target value : node)
| Expr (value : node)
| Return (value : node)
| Yield (value : node)
| YieldFrom (value : node)
| Assert (test msg : node)
| IfExp (test body orelse : node)
| FunctionDef (defaults body decorator_list : list node)
| ClassDef (body : list node)
| BoolOp (values : list node)
| Subscript (value slice : node)
| With (items body : list node)
| List (elts : list node)
| Tuple (elts : list node)
| Set_ (elts : list node)
| Lambda (body : node)
| For (target iter : node) (body orelse : list node)
| While (test : node) (body orelse : list node)
| BinOp (left right : node)
| UnaryOp (operand : node)
| Try (body handlers orelse finalbody : list node)
| ExceptHandler (type : node) (body : list node)
| Call (func : node) (args keywords : list node)
| If (test : node) (body orelse : list node)
| Compare (left : node) (comparators : list node)
| withitem (context_expr optional_vars : node)
| Raise (exc : node)
| Dict (keys values : list node)
| ListComp (generators : list node)
| SetComp (generators : list node)
| GeneratorExp (generators : list node)
| DictComp (generators : list node)
| comprehension (target iter : node) (ifs : list node)
| Attribute (value : node) (attr : string)
| AnnAssign (target annotation value : node)
| NamedExpr (target value : node)
| AsyncFunctionDef (defaults body decorator_list : list node)
| Starred (value : node)
| Nonlocal
| TypeAlias
| Other.

End Ast.

(** [ast.Module]: the list of top-level statements. *)
Record module_ast := Module_ { body : list Ast.node }.

(** ** Exceptions, diagnostics, file system, configuration *)

(** The exceptions that the script leaves uncaught. *)
Inductive exn :=
| OSError          (* [open] or [read] failed *)
| AssertionError   (* an [assert] of [find__all__] failed *)
| IndexError       (* [stm.targets[0]] on an empty list *)
| TypeError.       (* [sorted] compared values of unordered types *)

(** What the script prints, one constructor per place where the script prints.
    [UnknownModule], [FailedToParse] and [FailedToParseModule] go to
    standard error, the others to standard output. *)
Inductive event :=
| UnknownModule (module pathRel dirPathRel : string)
| FailedToParse (fpath e : string)
| FailedToParseModule (module_fpath e : string)
| UnknownStatement
| UnusedSymbol (module_fpath : string) (symbol : constant)
| AddToAll (module_fpath : string) (add_list : list constant)
| PrintAll (module_fpath : string) (add_list : list constant).

(** The files, by the text of their absolute path: [Some text] when the
    file can be read as UTF-8, [None] when it exists and reading it
    raises; and the directories. *)
Record FS := MkFS {
  fs_files : gmap string (option string);
  fs_dirs : gset string
}.

(** What the run is given: the root directory found from
    [pyproject.toml], the working directory of the process, the
    configuration, and the behaviour of the interpreter that the
    embedding does not compute: [sys.stdlib_module_names], [ast.parse]
    (the message of the exception or the tree) and the order in which
    [list(...)] enumerates the set built for a module file. *)
Record Env := MkEnv {
  rootDir : string;
  cwd : string;
  stdlib_module_names : gset string;
  exclude_toplevel_module : gset string;
  is_excluded : string -> bool;
  parse : string -> string + module_ast;
  list_of_set : string -> gset constant -> list constant
}.

(** [modifyAndOpenFiles = True] *)
Definition modifyAndOpenFiles : bool := true.

(** [slashDunderInit = os.sep + "__init__.py"] *)
Definition slashDunderInit : string := "/__init__.py".

Section FileSystem.
Context (env : Env).

(** The file a path names: a relative path is taken from the working
    directory, an absolute one as it is. *)
Definition abspath (p : string) : string := PyStr.join2 (cwd env) p.

Definition isfile (fs : FS) (p : string) : bool :=
  bool_decide (is_Some (fs_files fs !! abspath p)).

Definition isdir (fs : FS) (p : string) : bool :=
  bool_decide (abspath p ∈ fs_dirs fs).

(** [open(p).read()]: [None] when it raises. *)
Definition read_text (fs : FS) (p : string) : option string :=
  match fs_files fs !! abspath p with
  | Some (Some text) => Some text
  | _ => None
  end.

(** [open(p, "w").write(text)] *)
Definition write_text (fs : FS) (p text : string) : FS :=
  MkFS (<[abspath p := Some text]> (fs_files fs)) (fs_dirs fs).

(** Relative paths name files under the root directory. *)
Definition at_root : Prop := ∀ p, abspath p = PyStr.join2 (rootDir env) p.

(** The root directory is an absolute path. *)
Definition root_absolute : bool := PyStr.startswith "/" (rootDir env).
End FileSystem.

(** ** The search for the root directory, lines 41 to 51 *)

(** The directories that the loop tests, in its order: the first
    [count] components of [scanDir] joined behind the separator, for
    [count] from the number of components down to 2. *)
Definition root_candidates (scanDir : string) : list string :=
  let scanDirParts := PyStr.split_on "/" scanDir in
  map (fun count => PyStr.join "/" (take count scanDirParts))
    (rev (seq 2 (length scanDirParts - 1))).

Definition has_pyproject (env : Env) (files : FS) (dir : string) : bool :=
  isfile env files (PyStr.join dir ["pyproject.toml"]).

(** Lines 48 and 49: the separator is put at the end when it is not
    there. *)
Definition with_sep (dir : string) : string :=
  if PyStr.endswith "/" dir then dir else dir ++ "/".

(** [rootDir] as the script computes it from [scanDir]: every tested
    directory that holds a [pyproject.toml] overwrites the one found
    before it. *)
Definition find_rootDir (env : Env) (files : FS) (scanDir : string) : string :=
  with_sep
    (fold_left
       (fun rootDir _testDir =>
          if has_pyproject env files _testDir then _testDir else rootDir)
       (root_candidates scanDir) scanDir).

(** ** The module resolver, [moduleFilePath] *)

Section Resolver.
Context (env : Env) (fs : FS).

(** The components joined into the candidate path: those of the
    reference, behind the two halves of the referencing directory when
    the first component names a sibling there. *)
Definition candidate_parts (parts : list string) (main dirPathRel : string)
    (subDirs files : list string) : list string :=
  if PyStr.mem main files || PyStr.mem (main ++ ".py") files
     || PyStr.mem main subDirs
  then (let '(h, t) := PyStr.split dirPathRel in h :: t :: parts)
  else parts.

(** [join] applied to the components, a list that is not empty *)
Definition join_parts (parts : list string) : string :=
  match parts with
  | [] => ""
  | a :: p => PyStr.join a p
  end.

(** [pathRel] of a reference, as line 104 computes it. *)
Definition candidate_path (module dirPathRel : string)
    (subDirs files : list string) : string :=
  let parts := PyStr.split_on "." module in
  join_parts (candidate_parts parts (hd "" parts) dirPathRel subDirs files).

(** The body of [moduleFilePath]: the result and what it prints. *)
Definition moduleFilePath_body (module dirPathRel : string)
    (subDirs files : list string) (silent : bool)
    : option string * list event :=
  if String.eqb module "" then (None, [])
  else
    let parts := PyStr.split_on "." module in
    match parts with
    | [] => (None, [])
    | main :: _ =>
        if bool_decide (main ∈ stdlib_module_names env) then (None, [])
        else if bool_decide (main ∈ exclude_toplevel_module env) then (None, [])
        else
          let parts := candidate_parts parts main dirPathRel subDirs files in
          let pathRel := join_parts parts in
          let dpath := PyStr.join (rootDir env) [pathRel] in
          if isdir env fs dpath then
            if isfile env fs (PyStr.join dpath ["__init__.py"])
            then (Some (PyStr.join pathRel ["__init__.py"]), [])
            else (None, [])
          else if isfile env fs (dpath ++ ".py")
          then (Some (pathRel ++ ".py"), [])
          else (None,
                if silent then []
                else [UnknownModule module pathRel dirPathRel])
    end.
End Resolver.

(** The key of [lru_cache]: the four positional arguments and whether
    [silent=True] was passed. *)
Abbreviation cache_key := (string * string * list string * list string * bool)%type.

(** The globals that the walk over the tree fills. *)
Record collected := MkCollected {
  cache : gmap cache_key (option string);
  clog : list event;
  imported_set : gset string;
  imported_from_by_module_path : gmap string (gset string);
  all_module_attr_access : gset (string * option string)
}.

(** The locals of one [processFile] call next to the globals. *)
Record fstate := MkFstate {
  glob : collected;
  imports_by_name : gmap string (string * option string);
  attr_access : gset (string * string)
}.

(** [s1 + s2] on lists, written apart from the append of strings. *)
Notation "l1 +++ l2" := (@app _ l1 l2) (at level 60, right associativity).

Section Collector.
Context (env : Env) (fs : FS).

(** [moduleFilePath] behind [@lru_cache]: a call with a key seen
    before returns the stored result and prints nothing. *)
Definition moduleFilePath (module dirPathRel : string)
    (subDirs files : list string) (silent : bool) (g : collected)
    : option string * collected :=
  let key : cache_key := (module, dirPathRel, subDirs, files, silent) in
  match cache g !! key with
  | Some r => (r, g)
  | None =>
      let '(r, evs) :=
        moduleFilePath_body env fs module dirPathRel subDirs files silent in
      (r, MkCollected (<[key := r]> (cache g)) (clog g +++ evs)
            (imported_set g) (imported_from_by_module_path g)
            (all_module_attr_access g))
  end.

Context (dirPathRel : string) (subDirs files : list string).

(** The name an alias binds: [asname] when it is given and not empty. *)
Definition bound_name (a : Ast.alias) : string :=
  match Ast.asname a with
  | Some n => if String.eqb n "" then Ast.name a else n
  | None => Ast.name a
  end.

(** One round of the loop of [handleImport].  The local list
    [imports] is written and never read, and is left out. *)
Definition handleImport_name (s : fstate) (a : Ast.alias) : fstate :=
  let '(module_fpath, g) :=
    moduleFilePath (Ast.name a) dirPathRel subDirs files false (glob s) in
  match module_fpath with
  | None => MkFstate g (imports_by_name s) (attr_access s)
  | Some p =>
      MkFstate
        (MkCollected (cache g) (clog g) ({[Ast.name a]} ∪ imported_set g)
           (imported_from_by_module_path g) (all_module_attr_access g))
        (<[bound_name a := (Ast.name a, Some p)]> (imports_by_name s))
        (attr_access s)
  end.

Definition handleImport (names : list Ast.alias) (s : fstate) : fstate :=
  fold_left handleImport_name names s.

(** [import_froms_set.add(name)] on the set stored under [p] *)
Definition add_import_from (p name : string) (g : collected) : collected :=
  MkCollected (cache g) (clog g) (imported_set g)
    (<[p := {[name]} ∪ default ∅ (imported_from_by_module_path g !! p)]>
       (imported_from_by_module_path g))
    (all_module_attr_access g).

(** One round of the loop of [handleImportFrom]. *)
Definition handleImportFrom_name (module p : string) (s : fstate)
    (a : Ast.alias) : fstate :=
  if String.eqb (Ast.name a) "" then s
  else
    let full_name := module ++ "." ++ Ast.name a in
    let '(tmp_module_fpath, g) :=
      moduleFilePath full_name dirPathRel subDirs files true (glob s) in
    MkFstate (add_import_from p (Ast.name a) g)
      (<[bound_name a := (full_name, tmp_module_fpath)]> (imports_by_name s))
      (attr_access s).

Definition handleImportFrom (module : option string)
    (names : list Ast.alias) (s : fstate) : fstate :=
  let module :=
    match module with
    | None => PyStr.replace_char "/" "." dirPathRel
    | Some m => m
    end in
  let '(module_fpath, g) :=
    moduleFilePath module dirPathRel subDirs files false (glob s) in
  match module_fpath with
  | None => MkFstate g (imports_by_name s) (attr_access s)
  | Some p =>
      let g' :=
        MkCollected (cache g) (clog g) (imported_set g)
          (<[p := default ∅ (imported_from_by_module_path g !! p)]>
             (imported_from_by_module_path g))
          (all_module_attr_access g) in
      fold_left (handleImportFrom_name module p) names
        (MkFstate g' (imports_by_name s) (attr_access s))
  end.

Definition log_unknown (s : fstate) : fstate :=
  let g := glob s in
  MkFstate
    (MkCollected (cache g) (clog g +++ [UnknownStatement]) (imported_set g)
       (imported_from_by_module_path g) (all_module_attr_access g))
    (imports_by_name s) (attr_access s).

(** [handleStatement], with [handleStatementList] as its inner loop.
    Where the script walks a concatenation of lists, the lists are
    walked one after the other ([handleStatementList_app] below). *)
Fixpoint handleStatement (stm : Ast.node) (s : fstate) {struct stm} : fstate :=
  let handleStatementList :=
    fix go (l : list Ast.node) (s : fstate) {struct l} : fstate :=
      match l with
      | [] => s
      | x :: l' => go l' (handleStatement x s)
      end in
  match stm with
  | Ast.NoneNode => s
  | Ast.Import names => handleImport names s
  | Ast.ImportFrom module names => handleImportFrom module names s
  | Ast.Name _ => s
  | Ast.Pass | Ast.Break | Ast.Continue | Ast.Delete | Ast.Constant _
  | Ast.JoinedStr | Ast.Slice | Ast.Global => s
  | Ast.Assign targets value =>
      handleStatementList targets (handleStatement value s)
  | Ast.AugAssign target value =>
      handleStatement value (handleStatement target s)
  | Ast.Expr value => handleStatement value s
  | Ast.Return value => handleStatement value s
  | Ast.Yield value => handleStatement value s
  | Ast.YieldFrom value => handleStatement value s
  | Ast.Assert test msg => handleStatement msg (handleStatement test s)
  | Ast.IfExp test body orelse =>
      handleStatement orelse (handleStatement body (handleStatement test s))
  | Ast.FunctionDef defaults body decorator_list =>
      handleStatementList decorator_list
        (handleStatementList body (handleStatementList defaults s))
  | Ast.ClassDef body => handleStatementList body s
  | Ast.BoolOp values => handleStatementList values s
  | Ast.Subscript value slice =>
      handleStatement slice (handleStatement value s)
  | Ast.With items body =>
      handleStatementList body (handleStatementList items s)
  | Ast.List elts | Ast.Tuple elts | Ast.Set_ elts =>
      handleStatementList elts s
  | Ast.Lambda body => handleStatement body s
  | Ast.For target iter body orelse =>
      handleStatementList orelse
        (handleStatementList body
           (handleStatement iter (handleStatement target s)))
  | Ast.While test body orelse =>
      handleStatementList orelse
        (handleStatementList body (handleStatement test s))
  | Ast.BinOp lhs rhs => handleStatement rhs (handleStatement lhs s)
  | Ast.UnaryOp operand => handleStatement operand s
  | Ast.Try body handlers orelse finalbody =>
      handleStatementList finalbody
        (handleStatementList orelse
           (handleStatementList handlers (handleStatementList body s)))
  | Ast.ExceptHandler type body =>
      handleStatementList body (handleStatement type s)
  | Ast.Call func args keywords =>
      handleStatement func
        (handleStatementList keywords (handleStatementList args s))
  | Ast.If test body _ => handleStatementList body (handleStatement test s)
  | Ast.Compare lhs comparators =>
      handleStatementList comparators (handleStatement lhs s)
  | Ast.withitem context_expr optional_vars =>
      handleStatement optional_vars (handleStatement context_expr s)
  | Ast.Raise exc => handleStatement exc s
  | Ast.Dict keys values =>
      handleStatementList values (handleStatementList keys s)
  | Ast.ListComp generators | Ast.SetComp generators
  | Ast.GeneratorExp generators | Ast.DictComp generators =>
      handleStatementList generators s
  | Ast.comprehension target iter ifs =>
      handleStatementList ifs
        (handleStatement iter (handleStatement target s))
  | Ast.Attribute value attr =>
      match value with
      | Ast.Name id =>
          MkFstate (glob s) (imports_by_name s) ({[(id, attr)]} ∪ attr_access s)
      | _ => handleStatement value s
      end
  | Ast.AnnAssign target annotation value =>
      handleStatement value
        (handleStatement annotation (handleStatement target s))
  | Ast.NamedExpr target value =>
      handleStatement value (handleStatement target s)
  | Ast.AsyncFunctionDef defaults body decorator_list =>
      handleStatementList decorator_list
        (handleStatementList body (handleStatementList defaults s))
  | Ast.Starred value => handleStatement value s
  | Ast.Nonlocal => s
  | Ast.TypeAlias => s
  | Ast.Other => log_unknown s
  end.

Definition handleStatementList (l : list Ast.node) (s : fstate) : fstate :=
  fold_left (fun s x => handleStatement x s) l s.

(** The resolved pair of one recorded access, if it has one. *)
Definition resolve_access (imports : gmap string (string * option string))
    (x : string * string) : option (string * option string) :=
  let '(_id, attr) := x in
  if String.eqb _id "self" || String.eqb _id "msg" then None
  else match imports !! _id with
       | None => None
       | Some (_, module_fpath) => Some (attr, module_fpath)
       end.

(** The loop that ends [processFile]. *)
Definition fold_attr_access (s : fstate) : collected :=
  let g := glob s in
  MkCollected (cache g) (clog g) (imported_set g)
    (imported_from_by_module_path g)
    (all_module_attr_access g
       ∪ set_omap (resolve_access (imports_by_name s)) (attr_access s)).
End Collector.

(** A loop whose body can raise: the first exception ends it. *)
Fixpoint iter_exn {A S : Type} (f : A -> S -> S * option exn)
    (l : list A) (s : S) : S * option exn :=
  match l with
  | [] => (s, None)
  | x :: l' =>
      match f x s with
      | (s', None) => iter_exn f l' s'
      | r => r
      end
  end.

Section ProcessFile.
Context (env : Env) (fs : FS).

Definition log_collected (ev : event) (g : collected) : collected :=
  MkCollected (cache g) (clog g +++ [ev]) (imported_set g)
    (imported_from_by_module_path g) (all_module_attr_access g).

(** The loop over [code.body] in [processFile]. *)
Definition handleTop (dirPathRel : string) (subDirs files : list string)
    (s : fstate) (stm : Ast.node) : fstate :=
  match stm with
  | Ast.Import names => handleImport env fs dirPathRel subDirs files names s
  | Ast.ImportFrom module names =>
      handleImportFrom env fs dirPathRel subDirs files module names s
  | _ => handleStatement env fs dirPathRel subDirs files stm s
  end.

(** [processFile], with the globals [dirPath] and [files] of the
    walk that it reads as arguments. *)
Definition processFile (dirPath : string) (files : list string)
    (dirPathRel fname : string) (subDirs : list string) (g : collected)
    : collected * option exn :=
  if negb (PyStr.endswith ".py" fname) then (g, None)
  else
    let fpath := PyStr.join dirPath [fname] in
    if is_excluded env fpath then (g, None)
    else
      let fpathRel := PyStr.drop_str (String.length (rootDir env)) fpath in
      if is_excluded env fpathRel then (g, None)
      else
        match read_text env fs fpath with
        | None => (g, Some OSError)
        | Some text =>
            match parse env text with
            | inl e => (log_collected (FailedToParse fpath e) g, None)
            | inr code =>
                let s :=
                  fold_left (handleTop dirPathRel subDirs files) (body code)
                    (MkFstate g ∅ ∅) in
                (fold_attr_access s, None)
            end
        end.

(** One directory of [os.walk(scanDir)]. *)
Definition walk_dir (entry : string * list string * list string)
    (g : collected) : collected * option exn :=
  let '(dirPath, subDirs, files) := entry in
  let dirPathRel := PyStr.drop_str (String.length (rootDir env)) dirPath in
  iter_exn (fun fname => processFile dirPath files dirPathRel fname subDirs)
    files g.

(** The walk over the tree; [walk] is what [os.walk(scanDir)] yields. *)
Definition collect (walk : list (string * list string * list string))
    (g : collected) : collected * option exn :=
  iter_exn walk_dir walk g.
End ProcessFile.

Definition empty_collected : collected := MkCollected ∅ [] ∅ ∅ ∅.

(** ** The aggregated maps *)

Definition to_check_imported_modules (g : collected) : gset string :=
  dom (imported_from_by_module_path g)
  ∪ set_omap (fun x : string * option string => snd x) (all_module_attr_access g).

Definition add_attr (x : string * option string)
    (m : gmap string (gset string)) : gmap string (gset string) :=
  match snd x with
  | None => m
  | Some module_fpath =>
      <[module_fpath := {[fst x]} ∪ default ∅ (m !! module_fpath)]> m
  end.

Definition module_attr_access_by_fpath (accesses : gset (string * option string))
    : gmap string (gset string) :=
  set_fold add_attr ∅ accesses.

(** ** [find__all__] *)

(** The loop over [stm.value.elts]. *)
Fixpoint constant_values (elts : list Ast.node) : exn + list constant :=
  match elts with
  | [] => inr []
  | Ast.Constant v :: rest =>
      match constant_values rest with
      | inr l => inr (v :: l)
      | inl e => inl e
      end
  | _ :: _ => inl AssertionError
  end.

(** The loop of [find__all__] over [code.body]: the first assignment
    whose first target is the name [__all__] decides the result. *)
Fixpoint find_in_body (stms : list Ast.node)
    : exn + option (Ast.node * list constant) :=
  match stms with
  | [] => inr None
  | stm :: rest =>
      match stm with
      | Ast.Assign targets value =>
          match targets with
          | [] => inl IndexError
          | Ast.Name id :: _ =>
              if String.eqb id "__all__" then
                match value with
                | Ast.List elts =>
                    if Nat.eqb (length targets) 1 then
                      match constant_values elts with
                      | inr all_ => inr (Some (stm, all_))
                      | inl e => inl e
                      end
                    else inl AssertionError
                | _ => inl AssertionError
                end
              else find_in_body rest
          | _ :: _ => find_in_body rest
          end
      | _ => find_in_body rest
      end
  end.

Definition find__all__ (code : module_ast)
    : exn + option (Ast.node * list constant) :=
  find_in_body (body code).

(** ** [repr] and [sorted] on the values the reconciler handles *)

Module PyRepr.

Definition hex_digit (n : nat) : ascii :=
  nth n ["0"; "1"; "2"; "3"; "4"; "5"; "6"; "7"; "8"; "9";
         "a"; "b"; "c"; "d"; "e"; "f"]%char "0"%char.

(** The double quote character. *)
Definition dquote : ascii := ascii_of_nat 34.

Fixpoint contains_char (c : ascii) (s : string) : bool :=
  match s with
  | EmptyString => false
  | String a s' => Ascii.eqb a c || contains_char c s'
  end.

(** One character inside the quotes [q]: backslash, the quote, tab,
    newline and carriage return are escaped by a backslash, the other
    control characters as [\xNN]; the bytes of a character beyond ASCII
    stay, as every printable character does. *)
Definition escape_char (q c : ascii) : string :=
  let n := nat_of_ascii c in
  if Ascii.eqb c "\" then "\\"
  else if Ascii.eqb c q then String "\" (String q "")
  else if Nat.eqb n 9 then "\t"
  else if Nat.eqb n 10 then "\n"
  else if Nat.eqb n 13 then "\r"
  else if Nat.ltb n 32 || Nat.eqb n 127
       then String "\" (String "x" (String (hex_digit (n / 16))
                                      (String (hex_digit (n mod 16)) "")))
  else String c "".

Fixpoint escape (q : ascii) (s : string) : string :=
  match s with
  | EmptyString => EmptyString
  | String c s' => escape_char q c ++ escape q s'
  end.

(** [repr(s)] for a string: in single quotes, unless [s] has a single
    quote and no double quote. *)
Definition repr_str (s : string) : string :=
  let q : ascii :=
    if contains_char "'" s && negb (contains_char dquote s)
    then dquote else "'"%char in
  String q (escape q s ++ String q "").

Definition repr (c : constant) : string :=
  match c with
  | CStr s => repr_str s
  | CInt z => pretty z
  | CNone => "None"
  end.

Fixpoint comma_join (l : list string) : string :=
  match l with
  | [] => ""
  | [x] => x
  | x :: l' => x ++ ", " ++ comma_join l'
  end.

(** [repr(l)] for a list *)
Definition repr_list (l : list constant) : string :=
  "[" ++ comma_join (map repr l) ++ "]".

Fixpoint insert_Z (x : Z) (l : list Z) : list Z :=
  match l with
  | [] => [x]
  | y :: l' => if Z.leb x y then x :: l else y :: insert_Z x l'
  end.

Fixpoint all_strs (l : list constant) : option (list string) :=
  match l with
  | [] => Some []
  | CStr s :: l' => option_map (cons s) (all_strs l')
  | _ :: _ => None
  end.

Fixpoint all_ints (l : list constant) : option (list Z) :=
  match l with
  | [] => Some []
  | CInt z :: l' => option_map (cons z) (all_ints l')
  | _ :: _ => None
  end.

(** [sorted(X)] for a set of constants: strings order among strings
    and integers among integers; any other comparison raises, and two
    values or more are always compared. *)
Definition sorted_set (X : gset constant) : exn + list constant :=
  let l := elements X in
  if Nat.leb (length l) 1 then inr l
  else match all_strs l with
       | Some strs => inr (map CStr (PyStr.sorted strs))
       | None =>
           match all_ints l with
           | Some ints => inr (map CInt (foldr insert_Z [] ints))
           | None => inl TypeError
           end
       end.

End PyRepr.

(** ** The reconciler: the loop over [sorted(to_check_imported_modules)] *)

(** What the reconciler changes: the files, the output, and the globals
    [modifiedFiles] and [skipAllAdd]. *)
Record rstate := MkRstate {
  fs : FS;
  rlog : list event;
  modifiedFiles : gset string;
  skipAllAdd : gset (string * string)
}.

Definition log_rstate (ev : event) (st : rstate) : rstate :=
  MkRstate (fs st) (rlog st +++ [ev]) (modifiedFiles st) (skipAllAdd st).

Section Reconciler.
Context (env : Env).
(** [imported_from_by_module_path] and [module_attr_access_by_fpath] *)
Context (imported_from attr_by_fpath : gmap string (gset string)).

(** [names1 or []] and [names2 or []] *)
Definition names1 (module_fpath : string) : gset string :=
  default ∅ (imported_from !! module_fpath).
Definition names2 (module_fpath : string) : gset string :=
  default ∅ (attr_by_fpath !! module_fpath).

(** The test of lines 437 to 439: the file is a package-init file and
    the name is a sibling module file or directory. *)
Definition shadowed (files : FS) (module_fpath name : string) : bool :=
  PyStr.endswith slashDunderInit module_fpath
  && (let moduleDirName :=
        PyStr.join (PyStr.dirname module_fpath) [name] in
      isfile env files (moduleDirName ++ ".py") || isdir env files moduleDirName).

(** The pairs that the loop over [names1] adds to [skipAllAdd]. *)
Definition skipped (files : FS) (module_fpath : string) : gset (string * string) :=
  set_map (fun name => (module_fpath, name))
    (filter (fun name => shadowed files module_fpath name) (names1 module_fpath)).

(** [_all_set] at line 447, from [_all_set_current]. *)
Definition required_set (files : FS) (module_fpath : string)
    (current : gset constant) : gset constant :=
  (current
   ∪ set_map CStr
       (filter (fun name => negb (shadowed files module_fpath name))
          (names1 module_fpath))
   ∪ set_map CStr (names2 module_fpath))
  ∖ {[CStr "*"]}.

(** [used_set] and [unused_set] of the [has_all] branch. *)
Definition used_set (module_fpath : string) : gset constant :=
  set_map CStr (names1 module_fpath ∪ names2 module_fpath).

Definition unused_set (module_fpath : string) (current : gset constant)
    : gset constant :=
  current ∖ used_set module_fpath.

(** The text written at line 468. *)
Definition new_text (add_list : list constant) (text : string) : string :=
  "__all__ = " ++ PyRepr.repr_list add_list ++ String (ascii_of_nat 10) text.

(** Lines 457 to 475. *)
Definition emit (module_fpath : string) (has_all : bool)
    (_all_set current : gset constant) (st : rstate) : rstate * option exn :=
  if Nat.eqb (size _all_set) (size current) then (st, None)
  else
    let add_list := list_of_set env module_fpath (_all_set ∖ current) in
    if has_all then (log_rstate (AddToAll module_fpath add_list) st, None)
    else if modifyAndOpenFiles then
      match read_text env (fs st) module_fpath with
      | None => (st, Some OSError)
      | Some text =>
          (MkRstate (write_text env (fs st) module_fpath (new_text add_list text))
             (rlog st) ({[module_fpath]} ∪ modifiedFiles st) (skipAllAdd st),
           None)
      end
    else (log_rstate (PrintAll module_fpath add_list) st, None).

(** Lines 425 to 475, after the file was parsed. *)
Definition reconcile_parsed (module_fpath : string) (code : module_ast)
    (st : rstate) : rstate * option exn :=
  match find__all__ code with
  | inl e => (st, Some e)
  | inr found =>
      let has_all := bool_decide (is_Some found) in
      let current : gset constant :=
        match found with
        | Some (_, _all) => list_to_set _all
        | None => ∅
        end in
      let _all_set := required_set (fs st) module_fpath current in
      let st1 :=
        MkRstate (fs st) (rlog st) (modifiedFiles st)
          (skipAllAdd st ∪ skipped (fs st) module_fpath) in
      if bool_decide (_all_set = ∅) then (st1, None)
      else if has_all then
        match PyRepr.sorted_set (unused_set module_fpath current) with
        | inl e => (st1, Some e)
        | inr symbols =>
            emit module_fpath has_all _all_set current
              (MkRstate (fs st1)
                 (rlog st1 +++ map (UnusedSymbol module_fpath) symbols)
                 (modifiedFiles st1) (skipAllAdd st1))
        end
      else emit module_fpath has_all _all_set current st1
  end.

(** One round of the loop, lines 411 to 475. *)
Definition reconcile_file (module_fpath : string) (st : rstate)
    : rstate * option exn :=
  let full_path := PyStr.join (rootDir env) [module_fpath] in
  match read_text env (fs st) full_path with
  | None => (st, Some OSError)
  | Some text =>
      if is_excluded env module_fpath then (st, None)
      else
        let module_top := hd "" (PyStr.split_on "/" module_fpath) in
        if bool_decide (module_top ∈ exclude_toplevel_module env) then (st, None)
        else
          match parse env text with
          | inl e => (log_rstate (FailedToParseModule module_fpath e) st, None)
          | inr code => reconcile_parsed module_fpath code st
          end
  end.

(** The loop over the candidate files. *)
Definition reconcile_all (to_check : gset string) (st : rstate)
    : rstate * option exn :=
  iter_exn reconcile_file (PyStr.sorted (elements to_check)) st.
End Reconciler.

(** ** The whole run, up to the call of the editor *)

Definition run (env : Env) (files : FS)
    (walk : list (string * list string * list string))
    : collected * rstate * option exn :=
  match collect env files walk empty_collected with
  | (g, Some e) => (g, MkRstate files (clog g) ∅ ∅, Some e)
  | (g, None) =>
      let '(st, e) :=
        reconcile_all env (imported_from_by_module_path g)
          (module_attr_access_by_fpath (all_module_attr_access g))
          (to_check_imported_modules g)
          (MkRstate files (clog g) ∅ ∅) in
      (g, st, e)
  end.

(** ** Predicates used to state the properties *)

(** Every stored result of the memo table is what the body of
    [moduleFilePath] returns on the stored arguments. *)
Definition cache_ok (env : Env) (files : FS)
    (c : gmap cache_key (option string)) : Prop :=
  ∀ module dirPathRel subDirs siblings silent r,
    c !! (module, dirPathRel, subDirs, siblings, silent) = Some r →
    fst (moduleFilePath_body env files module dirPathRel subDirs siblings silent) = r.

(** A top-level assignment whose first target is the name [__all__]. *)
Definition export_decl (stm : Ast.node) : bool :=
  match stm with
  | Ast.Assign (Ast.Name id :: _) _ => String.eqb id "__all__"
  | _ => false
  end.

(** An assignment without a target (the parser builds none). *)
Definition no_target (stm : Ast.node) : bool :=
  match stm with
  | Ast.Assign [] _ => true
  | _ => false
  end.

Definition is_constant (n : Ast.node) : bool :=
  match n with
  | Ast.Constant _ => true
  | _ => false
  end.

(** An assignment with one target whose value is a list literal of
    constants. *)
Definition list_of_constants (stm : Ast.node) : bool :=
  match stm with
  | Ast.Assign [_] (Ast.List elts) => forallb is_constant elts
  | _ => false
  end.


(** [list(...)] enumerates each element of the set once. *)
Definition enumerates (env : Env) : Prop :=
  ∀ module_fpath X, list_of_set env module_fpath X ≡ₚ elements X.

(** The state after a round that wrote nothing: the files and
    [modifiedFiles] are as before and the output grew by [evs]. *)
Definition quiet (st st' : rstate) (evs : list event) : Prop :=
  fs st' = fs st
  ∧ modifiedFiles st' = modifiedFiles st
  ∧ rlog st' = rlog st +++ evs.

(** The state after a round that rewrote the file named [m] from the
    working directory, putting [add_list] in front of [text]. *)
Definition rewrote (env : Env) (m : string) (st st' : rstate)
    (add_list : list constant) (text : string) : Prop :=
  read_text env (fs st) m = Some text
  ∧ fs st' = write_text env (fs st) m (new_text add_list text)
  ∧ modifiedFiles st' = {[m]} ∪ modifiedFiles st
  ∧ rlog st' = rlog st.


(** [s] ends with the separator. *)
Fixpoint ends_with_sep (s : string) : bool :=
  match s with
  | EmptyString => false
  | String c EmptyString => Ascii.eqb "/" c
  | String _ s' => ends_with_sep s'
  end.

(** What [os.path.join] puts between a first component that is not
    empty and a relative second one. *)
Definition glue (a : string) : string := if ends_with_sep a then "" else "/".

(** A component of a dotted name: not empty and without separator. *)
Definition component (c : string) : bool :=
  negb (String.eqb c "") && negb (PyRepr.contains_char "/" c).

(** [s] has no two separators in a row. *)
Fixpoint no_double_sep (s : string) : bool :=
  match s with
  | EmptyString => true
  | String a s' =>
      negb (Ascii.eqb a "/" && PyStr.startswith "/" s') && no_double_sep s'
  end.

(** A directory path as [os.walk] gives it below the root: relative,
    without separator at its end and without doubled separator. *)
Definition walked_dir (d : string) : bool :=
  negb (PyStr.startswith "/" d) && negb (ends_with_sep d) && no_double_sep d.

(** The components behind one another, a separator before each. *)
Fixpoint slashed (parts : list string) : string :=
  match parts with
  | [] => ""
  | p :: parts' => "/" ++ p ++ slashed parts'
  end.

(** A path that resolution may return: a file under the root
    directory whose name ends with the source extension. *)
Definition resolved (env : Env) (files : FS) (p : string) : Prop :=
  isfile env files (PyStr.join (rootDir env) [p]) = true
  ∧ PyStr.endswith ".py" p = true.

(** The memo table is consistent and every path that the globals hold
    is resolved. *)
Definition paths_resolved (env : Env) (files : FS) (g : collected) : Prop :=
  cache_ok env files (cache g)
  ∧ (∀ p, is_Some (imported_from_by_module_path g !! p) → resolved env files p)
  ∧ (∀ a p, (a, Some p) ∈ all_module_attr_access g → resolved env files p).

(** The same with the paths bound to the names of one file. *)
Definition bindings_resolved (env : Env) (files : FS) (s : fstate) : Prop :=
  paths_resolved env files (glob s)
  ∧ (∀ k n p, imports_by_name s !! k = Some (n, Some p) → resolved env files p).

(** The globals of [g'] hold what those of [g] hold: the memo table,
    the output as a prefix, and every recorded use. *)
Definition grows (g g' : collected) : Prop :=
  cache g ⊆ cache g'
  ∧ (∃ evs, clog g' = clog g +++ evs)
  ∧ imported_set g ⊆ imported_set g'
  ∧ (∀ p X, imported_from_by_module_path g !! p = Some X →
       ∃ X', imported_from_by_module_path g' !! p = Some X' ∧ X ⊆ X')
  ∧ all_module_attr_access g ⊆ all_module_attr_access g'.



(** The names of a from-import that the loop of [handleImportFrom]
    adds to the set of the imported module. *)
Definition imported_names (names : list Ast.alias) : gset string :=
  list_to_set (filter (fun n => n ≠ "") (map Ast.name names)).

(** The elements of [l] are distinct names, none the wildcard marker,
    each from-imported from [m] and not shadowed by a submodule, or
    attribute-accessed on [m]. *)
Definition used_names (env : Env)
    (imported_from attr_by_fpath : gmap string (gset string))
    (files : FS) (m : string) (l : list constant) : Prop :=
  NoDup l
  ∧ ∀ c, c ∈ l →
      ∃ name, c = CStr name ∧ name ≠ "*"
              ∧ ((name ∈ names1 imported_from m ∧ shadowed env files m name = false)
                 ∨ name ∈ names2 attr_by_fpath m).




(** ** Small trees on which the properties are exercised *)

Module Ex.

(** [ast.parse] given by a table from file text to syntax tree; any
    other text is a syntax error. *)
Fixpoint parse_table (tbl : list (string * module_ast)) (text : string)
    : string + module_ast :=
  match tbl with
  | [] => inl "invalid syntax"
  | (t, code) :: tbl' => if String.eqb t text then inr code else parse_table tbl' text
  end.

(** A configuration rooted at [/proj/] that excludes the paths under
    [vendor/] and the top-level module [thirdparty]. *)
Definition mk_env (cwd : string) (tbl : list (string * module_ast)) : Env :=
  MkEnv "/proj/" cwd {["os"; "sys"; "json"]} {["thirdparty"]}
    (PyStr.startswith "vendor/") (parse_table tbl) (fun _ X => elements X).

Definition mk_fs (texts : list (string * option string)) (dirs : list string) : FS :=
  MkFS (list_to_map texts) (list_to_set dirs).

(** A directory [pkg] without [__init__.py] next to a file [pkg.py]. *)
Definition env_plain : Env := mk_env "/proj/" [].
Definition fs_bare_dir : FS :=
  mk_fs [("/proj/pkg.py", Some "x = 1"); ("/proj/os.py", Some "x = 2")]
    ["/proj"; "/proj/pkg"].

(** [import-analyzer] cannot tell the two declarations of [two.py]
    apart from one; [bad.py] declares a tuple. *)
Definition two_decls : module_ast :=
  Module_ [Ast.Assign [Ast.Name "__all__"] (Ast.List [Ast.Constant (CStr "a")]);
           Ast.Assign [Ast.Name "__all__"] (Ast.List [Ast.Constant (CStr "b")])].
Definition tuple_decl : module_ast :=
  Module_ [Ast.Expr (Ast.Constant (CStr "doc"));
           Ast.Assign [Ast.Name "__all__"] (Ast.Tuple [Ast.Constant (CStr "a")])].
Definition plain_module : module_ast :=
  Module_ [Ast.FunctionDef [] [Ast.Pass] []].
Definition main_decls : module_ast :=
  Module_ [Ast.ImportFrom (Some "two") [Ast.Alias "a" None]].

Definition env_decls : Env :=
  mk_env "/proj/"
    [("from two import a", main_decls);
     ("__all__ = ['a']; __all__ = ['b']", two_decls);
     ("__all__ = ('a',)", tuple_decl);
     ("def q(): pass", plain_module)].
Definition fs_decls : FS :=
  mk_fs [("/proj/main.py", Some "from two import a");
         ("/proj/two.py", Some "__all__ = ['a']; __all__ = ['b']");
         ("/proj/bad.py", Some "__all__ = ('a',)");
         ("/proj/zed.py", Some "def q(): pass")]
    ["/proj"].
Definition walk_decls : list (string * list string * list string) :=
  [("/proj", [], ["main.py"; "two.py"])].

Definition start (files : FS) : rstate := MkRstate files [] ∅ ∅.


(** A package [pkg] with a submodule [pkg/sub.py], used from
    [main.py] through the attribute [pkg.sub]. *)
Definition main_pkg : module_ast :=
  Module_ [Ast.Import [Ast.Alias "pkg" None];
           Ast.Expr (Ast.Attribute (Ast.Name "pkg") "sub")].
Definition version_module : module_ast :=
  Module_ [Ast.Assign [Ast.Name "VERSION"] (Ast.Constant (CInt 1))].
Definition env_pkg : Env :=
  mk_env "/proj/"
    [("import pkg; pkg.sub", main_pkg);
     ("VERSION = 1", version_module);
     ("def q(): pass", plain_module)].
Definition fs_pkg : FS :=
  mk_fs [("/proj/main.py", Some "import pkg; pkg.sub");
         ("/proj/pkg/__init__.py", Some "VERSION = 1");
         ("/proj/pkg/sub.py", Some "def q(): pass")]
    ["/proj"; "/proj/pkg"].
Definition walk_pkg : list (string * list string * list string) :=
  [("/proj", ["pkg"], ["main.py"]); ("/proj/pkg", [], ["__init__.py"; "sub.py"])].

(** [lib.py] declares x and y; [main_xy] uses both, [main_x] only x. *)
Definition xy_decl : module_ast :=
  Module_ [Ast.Assign [Ast.Name "__all__"]
             (Ast.List [Ast.Constant (CStr "x"); Ast.Constant (CStr "y")])].
Definition main_xy : module_ast :=
  Module_ [Ast.ImportFrom (Some "lib") [Ast.Alias "x" None];
           Ast.Import [Ast.Alias "lib" None];
           Ast.Expr (Ast.Attribute (Ast.Name "lib") "y")].
Definition main_vendor_x : module_ast :=
  Module_ [Ast.ImportFrom (Some "vendor.lib") [Ast.Alias "x" None]].
Definition env_lib : Env :=
  mk_env "/proj/"
    [("from lib import x; import lib; lib.y", main_xy);
     ("from vendor.lib import x", main_vendor_x);
     ("__all__ = ['x', 'y']", xy_decl)].
Definition fs_lib : FS :=
  mk_fs [("/proj/main.py", Some "from lib import x; import lib; lib.y");
         ("/proj/lib.py", Some "__all__ = ['x', 'y']")]
    ["/proj"].

(** [broken.py] exists and cannot be read; [typo.py] cannot be parsed. *)
Definition main_zed : module_ast :=
  Module_ [Ast.ImportFrom (Some "zed") [Ast.Alias "q" None]].
Definition env_broken : Env :=
  mk_env "/proj/"
    [("from zed import q", main_zed); ("def q(): pass", plain_module)].
Definition fs_broken : FS :=
  mk_fs [("/proj/broken.py", None);
         ("/proj/typo.py", Some "def (:");
         ("/proj/main.py", Some "from zed import q");
         ("/proj/zed.py", Some "def q(): pass")]
    ["/proj"].
Definition walk_broken : list (string * list string * list string) :=
  [("/proj", [], ["broken.py"; "main.py"; "zed.py"])].

(** The run is started in [/proj/sub/], below the root directory;
    [a.py] is imported from, [sub/a.py] is not. *)
Definition main_a : module_ast :=
  Module_ [Ast.ImportFrom (Some "a") [Ast.Alias "x" None]].
Definition print_module : module_ast :=
  Module_ [Ast.Expr (Ast.Call (Ast.Name "print") [Ast.Constant (CInt 1)] [])].
Definition env_sub : Env :=
  mk_env "/proj/sub/"
    [("from a import x", main_a); ("def q(): pass", plain_module);
     ("print(1)", print_module)].
Definition fs_sub : FS :=
  mk_fs [("/proj/main.py", Some "from a import x");
         ("/proj/a.py", Some "def q(): pass");
         ("/proj/sub/a.py", Some "print(1)")]
    ["/proj"; "/proj/sub"].
Definition walk_sub : list (string * list string * list string) :=
  [("/proj", ["sub"], ["a.py"; "main.py"]); ("/proj/sub", [], ["a.py"])].

(** The tree of the end-to-end example: [main.py] imports from the
    package [pkg] and from [pkg/util.py] and accesses an attribute of
    the package through an alias. *)
Definition main_e2e : module_ast :=
  Module_ [Ast.ImportFrom (Some "pkg") [Ast.Alias "helper" None];
           Ast.ImportFrom (Some "pkg.util") [Ast.Alias "thing" None];
           Ast.Import [Ast.Alias "pkg" (Some "alias")];
           Ast.Expr (Ast.Attribute (Ast.Name "alias") "extra")].
Definition env_e2e : Env :=
  mk_env "/proj/"
    [("from pkg import helper; from pkg.util import thing; import pkg as alias; alias.extra",
      main_e2e);
     ("VERSION = 1", version_module);
     ("def q(): pass", plain_module)].
Definition fs_e2e : FS :=
  mk_fs [("/proj/main.py",
          Some "from pkg import helper; from pkg.util import thing; import pkg as alias; alias.extra");
         ("/proj/pkg/__init__.py", Some "VERSION = 1");
         ("/proj/pkg/util.py", Some "def q(): pass")]
    ["/proj"; "/proj/pkg"].
Definition walk_e2e : list (string * list string * list string) :=
  [("/proj", ["pkg"], ["main.py"]); ("/proj/pkg", [], ["__init__.py"; "util.py"])].

(** Two project files above the scanned directory [/proj/src/pkg]. *)
Definition fs_roots : FS :=
  mk_fs [("/proj/pyproject.toml", Some "[tool.import-analyzer]");
         ("/proj/src/pyproject.toml", Some "[project]")]
    ["/proj"; "/proj/src"; "/proj/src/pkg"].

(** [lib.py] declares the wildcard marker next to x. *)
Definition star_decl : module_ast :=
  Module_ [Ast.Assign [Ast.Name "__all__"]
             (Ast.List [Ast.Constant (CStr "*"); Ast.Constant (CStr "x")])].
Definition env_star : Env :=
  mk_env "/proj/" [("__all__ = ['*', 'x']", star_decl)].
Definition fs_star : FS :=
  mk_fs [("/proj/lib.py", Some "__all__ = ['*', 'x']")] ["/proj"].

End Ex.

(** * Properties *)

(** ** Paths *)

Example split_examples :
  PyStr.split "a/b/c" = ("a/b", "c")
  ∧ PyStr.split "" = ("", "")
  ∧ PyStr.split "a" = ("", "a")
  ∧ PyStr.split "/a" = ("/", "a")
  ∧ PyStr.split "a//b" = ("a", "b")
  ∧ PyStr.dirname "pkg/__init__.py" = "pkg"
  ∧ PyStr.dirname "__init__.py" = "".
Proof. repeat split. Qed.

Example join_examples :
  PyStr.join "" [""; "foo"] = "foo"
  ∧ PyStr.join "" ["a"; "foo"; "bar"] = "a/foo/bar"
  ∧ PyStr.join "/proj/" ["a/foo"] = "/proj/a/foo"
  ∧ PyStr.join "/proj" ["a.py"] = "/proj/a.py"
  ∧ PyStr.join "a" ["/b"] = "/b"
  ∧ PyStr.join "a" [""] = "a/".
Proof. repeat split. Qed.

Example str_examples :
  PyStr.split_on "." "a.b." = ["a"; "b"; ""]
  ∧ PyStr.split_on "." "" = [""]
  ∧ PyStr.endswith ".py" "a.py" = true
  ∧ PyStr.endswith ".py" "py" = false
  ∧ PyStr.replace_char "/" "." "a/b/c" = "a.b.c"
  ∧ PyStr.drop_str 6 "/proj/sub/x.py" = "sub/x.py"
  ∧ PyStr.sorted ["b"; "a/c"; "a"; "B"] = ["B"; "a"; "a/c"; "b"].
Proof. repeat split. Qed.

Example repr_examples :
  PyRepr.repr_list [CStr "a"; CStr "b"] = "['a', 'b']"
  ∧ PyRepr.repr_list [] = "[]"
  ∧ PyRepr.repr (CInt (-5)) = "-5"
  ∧ PyRepr.repr (CStr "it's") = String PyRepr.dquote ("it's" ++ String PyRepr.dquote "")
  ∧ PyRepr.repr (CStr "a\b") = "'a\\b'".
Proof. vm_compute. repeat split. Qed.

Example candidate_examples :
  candidate_path "pkg.util" "" ["pkg"] ["main.py"] = "pkg/util"
  ∧ candidate_path "util" "pkg" [] ["util.py"] = "pkg/util"
  ∧ candidate_path "util" "a/b" [] ["util.py"] = "a/b/util"
  ∧ candidate_path "other.mod" "a/b" [] ["util.py"] = "other/mod".
Proof. repeat split. Qed.

Lemma startswith_sep_app r x :
  PyStr.startswith "/" r = true → PyStr.startswith "/" (r ++ x) = true.
Proof. destruct r as [|a r]; [done|]. simpl. by destruct (Ascii.eqb "/" a). Qed.

Lemma join2_absolute r p :
  PyStr.startswith "/" p = true → PyStr.join2 r p = p.
Proof. intros H. unfold PyStr.join2. by rewrite H. Qed.

Lemma join2_from_absolute r p :
  PyStr.startswith "/" r = true →
  PyStr.startswith "/" (PyStr.join2 r p) = true.
Proof.
  intros Hr. unfold PyStr.join2.
  destruct (PyStr.startswith "/" p) eqn:Hp; [done|].
  destruct (String.eqb r "") eqn:Hre.
  - apply String.eqb_eq in Hre. by subst.
  - simpl. destruct (PyStr.endswith "/" r); by apply startswith_sep_app.
Qed.

(** A process started in the root directory resolves relative paths
    against it. *)
Lemma at_root_started_in_root env : cwd env = rootDir env → at_root env.
Proof. intros H p. unfold abspath. by rewrite H. Qed.

Section RootPaths.
Context (env : Env) (files : FS).
Hypothesis Habs : root_absolute env = true.

Lemma abspath_under_root p :
  abspath env (PyStr.join (rootDir env) [p]) = PyStr.join (rootDir env) [p].
Proof. apply join2_absolute, join2_from_absolute, Habs. Qed.

Hypothesis Hroot : at_root env.

Lemma abspath_relative p : abspath env p = PyStr.join (rootDir env) [p].
Proof. apply Hroot. Qed.


Lemma isfile_relative p :
  isfile env files p = isfile env files (PyStr.join (rootDir env) [p]).
Proof. unfold isfile. by rewrite abspath_under_root, abspath_relative. Qed.


Lemma isdir_relative p :
  isdir env files p = isdir env files (PyStr.join (rootDir env) [p]).
Proof. unfold isdir. by rewrite abspath_under_root, abspath_relative. Qed.
End RootPaths.

(** ** The resolver *)

Section ResolverFacts.
Context (env : Env) (files : FS).

Lemma cache_ok_empty : cache_ok env files ∅.
Proof. intros ? ? ? ? ? ? H. by rewrite lookup_empty in H. Qed.

Lemma cache_ok_insert c module dirPathRel subDirs siblings silent :
  cache_ok env files c →
  cache_ok env files
    (<[(module, dirPathRel, subDirs, siblings, silent) :=
         fst (moduleFilePath_body env files module dirPathRel subDirs siblings silent)]> c).
Proof.
  intros Hc m' d' s' f' b' r Hl.
  destruct (decide ((module, dirPathRel, subDirs, siblings, silent) = (m', d', s', f', b')))
    as [Heq|Hne].
  - inversion Heq; subst. rewrite lookup_insert_eq in Hl. congruence.
  - rewrite lookup_insert_ne in Hl by done. by apply Hc.
Qed.

(** A memoized call returns what the body returns. *)
Lemma moduleFilePath_result module dirPathRel subDirs siblings silent g :
  cache_ok env files (cache g) →
  fst (moduleFilePath env files module dirPathRel subDirs siblings silent g)
  = fst (moduleFilePath_body env files module dirPathRel subDirs siblings silent).
Proof.
  intros Hc. unfold moduleFilePath.
  destruct (cache g !! _) as [r|] eqn:Hl.
  - simpl. symmetry. by apply Hc.
  - by destruct (moduleFilePath_body _ _ _ _ _ _ _).
Qed.

(** A memoized call keeps the table consistent. *)
Lemma moduleFilePath_cache_ok module dirPathRel subDirs siblings silent g :
  cache_ok env files (cache g) →
  cache_ok env files
    (cache (snd (moduleFilePath env files module dirPathRel subDirs siblings silent g))).
Proof.
  intros Hc. unfold moduleFilePath.
  destruct (cache g !! _) as [r|] eqn:Hl; [done|].
  pose proof (cache_ok_insert (cache g) module dirPathRel subDirs siblings silent Hc) as Hi.
  by destruct (moduleFilePath_body _ _ _ _ _ _ _).
Qed.

(** What a memoized call prints: nothing on a hit, what the body
    prints on a miss. *)
Lemma moduleFilePath_log module dirPathRel subDirs siblings silent g :
  clog (snd (moduleFilePath env files module dirPathRel subDirs siblings silent g))
  = clog g +++
      match cache g !! (module, dirPathRel, subDirs, siblings, silent) with
      | Some _ => []
      | None =>
          snd (moduleFilePath_body env files module dirPathRel subDirs siblings silent)
      end.
Proof.
  unfold moduleFilePath.
  destruct (cache g !! _) as [r|] eqn:Hl.
  - simpl. by rewrite app_nil_r.
  - by destruct (moduleFilePath_body _ _ _ _ _ _ _).
Qed.

(** The globals that a memoized call leaves alone. *)
Lemma moduleFilePath_usage module dirPathRel subDirs siblings silent g :
  let g' := snd (moduleFilePath env files module dirPathRel subDirs siblings silent g) in
  imported_set g' = imported_set g
  ∧ imported_from_by_module_path g' = imported_from_by_module_path g
  ∧ all_module_attr_access g' = all_module_attr_access g.
Proof.
  unfold moduleFilePath.
  destruct (cache g !! _) as [r|] eqn:Hl; [done|].
  by destruct (moduleFilePath_body _ _ _ _ _ _ _).
Qed.

Lemma body_builtin_or_excluded module dirPathRel subDirs siblings silent :
  hd "" (PyStr.split_on "." module)
    ∈ stdlib_module_names env ∪ exclude_toplevel_module env →
  moduleFilePath_body env files module dirPathRel subDirs siblings silent
  = (None, []).
Proof.
  intros Hin. unfold moduleFilePath_body.
  destruct (String.eqb module ""); [done|].
  destruct (PyStr.split_on "." module) as [|main rest]; [done|].
  simpl in Hin. apply elem_of_union in Hin as [Hin|Hin].
  - by rewrite bool_decide_eq_true_2.
  - rewrite (bool_decide_eq_true_2 (main ∈ exclude_toplevel_module env)) by done.
    by destruct (bool_decide _).
Qed.

(** The body after its early returns: the reference is not empty and
    its first component is neither built in nor excluded. *)
Lemma body_unfold module dirPathRel subDirs siblings silent :
  module ≠ "" →
  hd "" (PyStr.split_on "." module) ∉ stdlib_module_names env →
  hd "" (PyStr.split_on "." module) ∉ exclude_toplevel_module env →
  moduleFilePath_body env files module dirPathRel subDirs siblings silent
  = let pathRel := candidate_path module dirPathRel subDirs siblings in
    let dpath := PyStr.join (rootDir env) [pathRel] in
    if isdir env files dpath then
      if isfile env files (PyStr.join dpath ["__init__.py"])
      then (Some (PyStr.join pathRel ["__init__.py"]), [])
      else (None, [])
    else if isfile env files (dpath ++ ".py")
    then (Some (pathRel ++ ".py"), [])
    else (None, if silent then [] else [UnknownModule module pathRel dirPathRel]).
Proof.
  intros Hne Hstd Hex. unfold moduleFilePath_body, candidate_path.
  rewrite (proj2 (String.eqb_neq module "")) by done.
  destruct (PyStr.split_on "." module) as [|main rest] eqn:Hs.
  - by destruct module; simpl in Hs; repeat case_match.
  - simpl in Hstd, Hex. simpl hd.
    by rewrite !bool_decide_eq_false_2.
Qed.

Lemma body_directory_without_init module dirPathRel subDirs siblings silent :
  let dpath :=
    PyStr.join (rootDir env) [candidate_path module dirPathRel subDirs siblings] in
  isdir env files dpath = true →
  isfile env files (PyStr.join dpath ["__init__.py"]) = false →
  moduleFilePath_body env files module dirPathRel subDirs siblings silent
  = (None, []).
Proof.
  intros dpath Hd Hi. unfold moduleFilePath_body.
  destruct (String.eqb module ""); [done|].
  destruct (PyStr.split_on "." module) as [|main rest] eqn:Hs; [done|].
  repeat (case_match; try done); subst dpath; unfold candidate_path in *;
    rewrite Hs in *; simpl hd in *; congruence.
Qed.
End ResolverFacts.

(** ** What the specification states of the resolver *)

(** C8: a reference whose first dotted component names a standard
    library module or a top-level module excluded by configuration
    resolves to nothing and prints nothing, whatever the sibling files
    and directories and the disk hold; this holds of the body of
    [moduleFilePath] and of a call through its memo table. *)
Theorem C8_builtin_or_excluded_unresolved (env : Env) (files : FS)
    (module dirPathRel : string) (subDirs siblings : list string)
    (silent : bool) (g : collected) :
  hd "" (PyStr.split_on "." module)
    ∈ stdlib_module_names env ∪ exclude_toplevel_module env →
  cache_ok env files (cache g) →
  moduleFilePath_body env files module dirPathRel subDirs siblings silent = (None, [])
  ∧ fst (moduleFilePath env files module dirPathRel subDirs siblings silent g) = None
  ∧ clog (snd (moduleFilePath env files module dirPathRel subDirs siblings silent g))
    = clog g.
Proof.
  intros Hin Hc.
  pose proof (body_builtin_or_excluded env files module dirPathRel subDirs
                siblings silent Hin) as Hb.
  split; [done|]. split.
  - rewrite moduleFilePath_result by done. by rewrite Hb.
  - rewrite moduleFilePath_log, Hb. destruct (cache g !! _); apply app_nil_r.
Qed.

Lemma C8_witness :
  hd "" (PyStr.split_on "." "os.path")
    ∈ stdlib_module_names Ex.env_plain ∪ exclude_toplevel_module Ex.env_plain
  ∧ moduleFilePath_body Ex.env_plain Ex.fs_bare_dir "os.path" "" ["os"] ["os.py"] false
    = (None, []).
Proof.
  assert (H : hd "" (PyStr.split_on "." "os.path")
    ∈ stdlib_module_names Ex.env_plain ∪ exclude_toplevel_module Ex.env_plain)
    by (vm_compute; set_solver).
  split; [exact H|].
  exact (proj1 (C8_builtin_or_excluded_unresolved Ex.env_plain Ex.fs_bare_dir
                  "os.path" "" ["os"] ["os.py"] false empty_collected H
                  (cache_ok_empty _ _))).
Defined.

(** C10: when the candidate path is an existing directory without a
    package-init file, resolution returns nothing and prints nothing,
    also when [silent] is not set, and whether or not the path with
    the source extension is a file. *)
Theorem C10_directory_without_init_unresolved (env : Env) (files : FS)
    (module dirPathRel : string) (subDirs siblings : list string)
    (silent : bool) (g : collected) :
  let dpath :=
    PyStr.join (rootDir env) [candidate_path module dirPathRel subDirs siblings] in
  isdir env files dpath = true →
  isfile env files (PyStr.join dpath ["__init__.py"]) = false →
  cache_ok env files (cache g) →
  moduleFilePath_body env files module dirPathRel subDirs siblings silent = (None, [])
  ∧ fst (moduleFilePath env files module dirPathRel subDirs siblings silent g) = None
  ∧ clog (snd (moduleFilePath env files module dirPathRel subDirs siblings silent g))
    = clog g.
Proof.
  intros dpath Hd Hi Hc.
  pose proof (body_directory_without_init env files module dirPathRel subDirs
                siblings silent Hd Hi) as Hb.
  split; [done|]. split.
  - rewrite moduleFilePath_result by done. by rewrite Hb.
  - rewrite moduleFilePath_log, Hb. destruct (cache g !! _); apply app_nil_r.
Qed.

Lemma C10_witness :
  isdir Ex.env_plain Ex.fs_bare_dir "/proj/pkg" = true
  ∧ isfile Ex.env_plain Ex.fs_bare_dir "/proj/pkg/__init__.py" = false
  ∧ isfile Ex.env_plain Ex.fs_bare_dir "/proj/pkg.py" = true
  ∧ moduleFilePath_body Ex.env_plain Ex.fs_bare_dir "pkg" "" ["pkg"] ["pkg.py"] false
    = (None, []).
Proof.
  split; [by vm_compute|]. split; [by vm_compute|]. split; [by vm_compute|].
  refine (proj1 (C10_directory_without_init_unresolved Ex.env_plain Ex.fs_bare_dir
                   "pkg" "" ["pkg"] ["pkg.py"] false empty_collected _ _
                   (cache_ok_empty _ _))); by vm_compute.
Defined.

(** C6, as the code has it: a call that is not answered from the memo
    table, with [silent] not set, that returns unresolved for a
    reference that is not empty and neither built in nor excluded, and
    whose candidate path is not an existing directory, prints one
    diagnostic naming the reference, the candidate path and the
    referencing directory. *)
Theorem C6_unresolved_prints_diagnostic (env : Env) (files : FS)
    (module dirPathRel : string) (subDirs siblings : list string)
    (g : collected) :
  let pathRel := candidate_path module dirPathRel subDirs siblings in
  module ≠ "" →
  hd "" (PyStr.split_on "." module) ∉ stdlib_module_names env →
  hd "" (PyStr.split_on "." module) ∉ exclude_toplevel_module env →
  isdir env files (PyStr.join (rootDir env) [pathRel]) = false →
  cache g !! (module, dirPathRel, subDirs, siblings, false) = None →
  fst (moduleFilePath env files module dirPathRel subDirs siblings false g) = None →
  clog (snd (moduleFilePath env files module dirPathRel subDirs siblings false g))
  = clog g +++ [UnknownModule module pathRel dirPathRel].
Proof.
  intros pathRel Hne Hstd Hex Hd Hmiss Hres.
  rewrite moduleFilePath_log, Hmiss. f_equal.
  unfold moduleFilePath in Hres. rewrite Hmiss in Hres.
  rewrite body_unfold in * by done. simpl in *. fold pathRel in Hres |- *.
  rewrite Hd in *.
  by destruct (isfile env files _).
Qed.

Lemma C6_witness :
  clog (snd (moduleFilePath Ex.env_plain Ex.fs_bare_dir "nope.sub" "src" [] [] false
               empty_collected))
  = [UnknownModule "nope.sub" "nope/sub" "src"].
Proof.
  refine (C6_unresolved_prints_diagnostic Ex.env_plain Ex.fs_bare_dir
            "nope.sub" "src" [] [] empty_collected _ _ _ _ _ _);
    vm_compute; first [done | set_solver].
Defined.

(** C6 as stated fails: the reference [pkg] is not empty, not built
    in and not excluded, the call is not silent and returns unresolved,
    and nothing is printed, because [pkg] is a directory without a
    package-init file. *)
Lemma C6_counterexample :
  "pkg" ≠ ""
  ∧ (hd "" (PyStr.split_on "." "pkg")
       ∉ stdlib_module_names Ex.env_plain ∪ exclude_toplevel_module Ex.env_plain)
  ∧ fst (moduleFilePath Ex.env_plain Ex.fs_bare_dir "pkg" "" ["pkg"] ["pkg.py"]
           false empty_collected) = None
  ∧ clog (snd (moduleFilePath Ex.env_plain Ex.fs_bare_dir "pkg" "" ["pkg"]
                 ["pkg.py"] false empty_collected)) = [].
Proof.
  split; [done|]. split; [vm_compute; set_solver|]. by vm_compute.
Qed.

(** ** Loops that can raise *)

Lemma iter_exn_app {A S : Type} (f : A → S → S * option exn) (l1 l2 : list A) (s : S) :
  iter_exn f (l1 +++ l2) s
  = match iter_exn f l1 s with
    | (s', None) => iter_exn f l2 s'
    | r => r
    end.
Proof.
  revert s. induction l1 as [|x l1 IH]; intros s; simpl; [done|].
  destruct (f x s) as [s' [e|]]; [done|]. apply IH.
Qed.

(** An exception in one round is the result of the whole loop, with
    the state that the rounds before it left. *)
Lemma iter_exn_raises {A S : Type} (f : A → S → S * option exn)
    (done : list A) (x : A) (rest : list A) (s s' s'' : S) (e : exn) :
  iter_exn f done s = (s', None) →
  f x s' = (s'', Some e) →
  iter_exn f (done +++ x :: rest) s = (s'', Some e).
Proof. intros Hd Hx. rewrite iter_exn_app, Hd. simpl. by rewrite Hx. Qed.

(** What holds before a loop and is kept by each round holds after it,
    whether the loop ends or raises. *)
Lemma iter_exn_invariant {A S : Type} (f : A → S → S * option exn)
    (P : S → Prop) (l : list A) (s : S) :
  (∀ x s0, x ∈ l → P s0 → P (fst (f x s0))) →
  P s → P (fst (iter_exn f l s)).
Proof.
  revert s. induction l as [|x l IH]; intros s Hstep Hs; simpl; [done|].
  pose proof (Hstep x s (list_elem_of_here _ _) Hs) as Hx.
  destruct (f x s) as [s' [e|]]; [done|].
  apply IH; [|done]. intros y s0 Hy. apply Hstep. by apply list_elem_of_further.
Qed.

(** ** [find__all__] *)

Lemma constant_values_not_constant elts :
  forallb is_constant elts = false → constant_values elts = inl AssertionError.
Proof.
  induction elts as [|elt elts IH]; simpl; [done|].
  destruct elt; simpl; try done.
  intros H. by rewrite IH.
Qed.

Lemma constant_values_constants elts :
  forallb is_constant elts = true → ∃ l, constant_values elts = inr l.
Proof.
  induction elts as [|elt elts IH]; simpl; [by eexists|].
  destruct elt; simpl; try done.
  intros H. destruct (IH H) as [l ->]. by eexists.
Qed.

(** Statements that are no declaration of [__all__] are passed over. *)
Lemma find_in_body_skip before rest :
  Forall (fun stm => export_decl stm = false ∧ no_target stm = false) before →
  find_in_body (before +++ rest) = find_in_body rest.
Proof.
  induction 1 as [|stm before [Hd Ht] _ IH]; [done|].
  simpl. destruct stm; try done.
  destruct targets as [|target targets]; [done|].
  destruct target; try done.
  simpl in Hd. by rewrite Hd.
Qed.

(** The first declaration decides: a malformed one raises. *)
Lemma find_in_body_malformed stm rest :
  export_decl stm = true → list_of_constants stm = false →
  find_in_body (stm :: rest) = inl AssertionError.
Proof.
  intros Hd Hl. destruct stm; try done.
  destruct targets as [|target targets]; [done|].
  destruct target; try done.
  simpl in Hd. simpl. rewrite Hd.
  rename select Ast.node into v. destruct v; try done.
  destruct targets as [|? ?]; [|done].
  simpl in Hl |- *. by rewrite constant_values_not_constant.
Qed.

(** The first declaration decides: a well-formed one is returned,
    whatever follows it. *)
Lemma find_in_body_first stm rest :
  export_decl stm = true → list_of_constants stm = true →
  ∃ _all, find_in_body (stm :: rest) = inr (Some (stm, _all)).
Proof.
  intros Hd Hl. destruct stm; try done.
  destruct targets as [|target targets]; [done|].
  destruct target; try done.
  simpl in Hd. simpl. rewrite Hd.
  destruct targets as [|? ?]; [|done].
  rename select Ast.node into v. destruct v; try done.
  simpl in Hl |- *. destruct (constant_values_constants _ Hl) as [l ->].
  by eexists.
Qed.

(** ** The walk over the syntax tree *)

Section Walk.
Context (env : Env) (files : FS) (dirPathRel : string) (subDirs siblings : list string).

Local Abbreviation hs := (handleStatement env files dirPathRel subDirs siblings).
Local Abbreviation hsl := (handleStatementList env files dirPathRel subDirs siblings).

Lemma handleStatementList_inner l s :
  (fix go (l : list Ast.node) (s : fstate) {struct l} : fstate :=
     match l with
     | [] => s
     | x :: l' => go l' (hs x s)
     end) l s
  = hsl l s.
Proof. revert s. induction l as [|x l IH]; intros s; simpl; [done|]. apply IH. Qed.

Lemma handleStatementList_app l1 l2 s :
  hsl (l1 +++ l2) s = hsl l2 (hsl l1 s).
Proof. unfold handleStatementList. apply fold_left_app. Qed.

Lemma handleStatement_concatenations s :
  (∀ items body, hs (Ast.With items body) s = hsl (items +++ body) s)
  ∧ (∀ target iter body orelse,
       hs (Ast.For target iter body orelse) s
       = hsl ([target; iter] +++ body +++ orelse) s)
  ∧ (∀ test body orelse,
       hs (Ast.While test body orelse) s = hsl ([test] +++ body +++ orelse) s)
  ∧ (∀ body handlers orelse finalbody,
       hs (Ast.Try body handlers orelse finalbody) s
       = hsl (body +++ handlers +++ orelse +++ finalbody) s)
  ∧ (∀ type body, hs (Ast.ExceptHandler type body) s = hsl ([type] +++ body) s)
  ∧ (∀ test body orelse, hs (Ast.If test body orelse) s = hsl ([test] +++ body) s)
  ∧ (∀ lhs comparators,
       hs (Ast.Compare lhs comparators) s = hsl ([lhs] +++ comparators) s)
  ∧ (∀ target iter ifs,
       hs (Ast.comprehension target iter ifs) s = hsl ([target; iter] +++ ifs) s).
Proof.
  repeat split; intros; simpl;
    rewrite ?handleStatementList_inner, ?handleStatementList_app; reflexivity.
Qed.

Lemma handleStatementList_preserves (P : fstate → Prop) l :
  list_all Ast.node (fun x => ∀ s, P s → P (hs x s)) l →
  ∀ s, P s → P (hsl l s).
Proof.
  induction 1 as [|x Hx l _ IHl]; intros s Hs; simpl; [done|].
  apply IHl, Hx, Hs.
Qed.

Lemma handleStatement_preserves (P : fstate → Prop) :
  (∀ names s, P s → P (handleImport env files dirPathRel subDirs siblings names s)) →
  (∀ module names s, P s → P (handleImportFrom env files dirPathRel subDirs siblings module names s)) →
  (∀ id attr s, P s → P (MkFstate (glob s) (imports_by_name s) ({[(id, attr)]} ∪ attr_access s))) →
  (∀ s, P s → P (log_unknown s)) →
  ∀ stm s, P s → P (hs stm s).
Proof.
  intros Himp Hfrom Hattr Hunk stm.
  induction stm; intros s Hs; simpl; repeat rewrite handleStatementList_inner;
    repeat first
      [ assumption
      | apply Himp | apply Hfrom | apply Hunk
      | rewrite handleStatementList_inner
      | match goal with
        | H : ∀ s, P s → P (hs ?x s) |- P (hs ?x _) => apply H
        | H : list_all _ _ ?l |- P (hsl ?l _) =>
            apply (handleStatementList_preserves P l H)
        end ].
  destruct stm; first [by apply Hattr | by apply IHstm].
Qed.

(** The memo table stays consistent along the walk of a tree. *)
Lemma fold_left_preserves {A : Type} (P : fstate → Prop) (f : fstate → A → fstate) l :
  (∀ s a, P s → P (f s a)) → ∀ s, P s → P (fold_left f l s).
Proof.
  intros Hf. induction l as [|a l IH]; intros s Hs; simpl; [done|].
  apply IH, Hf, Hs.
Qed.

Lemma handleImport_cache_ok names s :
  cache_ok env files (cache (glob s)) →
  cache_ok env files
    (cache (glob (handleImport env files dirPathRel subDirs siblings names s))).
Proof.
  unfold handleImport. revert s.
  apply (fold_left_preserves (fun s => cache_ok env files (cache (glob s)))).
  intros s a Hs. unfold handleImport_name.
  pose proof (moduleFilePath_cache_ok env files (Ast.name a) dirPathRel subDirs
                siblings false (glob s) Hs) as Hc.
  destruct (moduleFilePath _ _ _ _ _ _ _ _) as [[p|] g]; exact Hc.
Qed.

Lemma handleImportFrom_cache_ok module names s :
  cache_ok env files (cache (glob s)) →
  cache_ok env files
    (cache (glob (handleImportFrom env files dirPathRel subDirs siblings module names s))).
Proof.
  intros Hs. unfold handleImportFrom.
  match goal with
  | |- context [moduleFilePath env files ?m _ _ _ _ _] =>
      pose proof (moduleFilePath_cache_ok env files m dirPathRel subDirs
                    siblings false (glob s) Hs) as Hc;
      destruct (moduleFilePath env files m dirPathRel subDirs siblings false (glob s))
        as [[p|] g]; [|exact Hc]
  end.
  apply (fold_left_preserves (fun s => cache_ok env files (cache (glob s))));
    [|exact Hc].
  intros s0 a Hs0. unfold handleImportFrom_name.
  destruct (String.eqb (Ast.name a) ""); [done|].
  match goal with
  | |- context [moduleFilePath env files ?m _ _ _ _ _] =>
      pose proof (moduleFilePath_cache_ok env files m dirPathRel subDirs
                    siblings true (glob s0) Hs0) as Hc0;
      destruct (moduleFilePath env files m dirPathRel subDirs siblings true (glob s0))
        as [tmp g0]
  end.
  exact Hc0.
Qed.

Lemma handleStatement_cache_ok stm s :
  cache_ok env files (cache (glob s)) →
  cache_ok env files (cache (glob (hs stm s))).
Proof.
  apply (handleStatement_preserves (fun s => cache_ok env files (cache (glob s)))).
  - intros. by apply handleImport_cache_ok.
  - intros. by apply handleImportFrom_cache_ok.
  - done.
  - done.
Qed.
End Walk.

Section WalkTree.
Context (env : Env) (files : FS).

Lemma processFile_cache_ok dirPath siblings dirPathRel fname subDirs g :
  cache_ok env files (cache g) →
  cache_ok env files
    (cache (fst (processFile env files dirPath siblings dirPathRel fname subDirs g))).
Proof.
  intros Hg. unfold processFile.
  repeat (case_match; try done).
  simpl.
  apply (fold_left_preserves (fun s => cache_ok env files (cache (glob s))));
    [|done].
  intros s0 stm Hs0. unfold handleTop.
  destruct stm; first
    [ by apply handleImport_cache_ok
    | by apply handleImportFrom_cache_ok
    | by apply handleStatement_cache_ok ].
Qed.

(** Every state of the walk has a consistent memo table, so that the
    claims on memoized calls apply throughout a run. *)
Lemma collect_cache_ok walk g :
  cache_ok env files (cache g) →
  cache_ok env files (cache (fst (collect env files walk g))).
Proof.
  unfold collect.
  apply (iter_exn_invariant _ (fun g => cache_ok env files (cache g))).
  intros [[dirPath subDirs] siblings] g0 _ Hg0. unfold walk_dir.
  apply (iter_exn_invariant _ (fun g => cache_ok env files (cache g))); [|done].
  intros fname g1 _ Hg1. by apply processFile_cache_ok.
Qed.
End WalkTree.

(** ** The aggregated maps *)

(** The attribute names stored under a file are those accessed on it. *)
Lemma module_attr_access_by_fpath_spec (accesses : gset (string * option string))
    (module_fpath attr : string) :
  attr ∈ names2 (module_attr_access_by_fpath accesses) module_fpath
  ↔ (attr, Some module_fpath) ∈ accesses.
Proof.
  unfold names2, module_attr_access_by_fpath. revert module_fpath attr.
  apply (set_fold_ind_L
           (fun (acc : gmap string (gset string)) (X : gset (string * option string)) =>
              ∀ p a, a ∈ default ∅ (acc !! p) ↔ (a, Some p) ∈ X)).
  - intros p a. rewrite lookup_empty. simpl. set_solver.
  - intros [a0 o] X acc Hx IH p a. unfold add_attr. simpl.
    destruct o as [p0|].
    + destruct (decide (p0 = p)) as [->|Hne].
      * rewrite lookup_insert_eq. simpl. rewrite elem_of_union, IH. set_solver.
      * rewrite lookup_insert_ne by done. rewrite IH. set_solver.
    + rewrite IH. set_solver.
Qed.

(** The candidates are the files from-imported from or accessed on. *)
Lemma to_check_imported_modules_spec (g : collected) (module_fpath : string) :
  module_fpath ∈ to_check_imported_modules g
  ↔ is_Some (imported_from_by_module_path g !! module_fpath)
    ∨ ∃ attr, (attr, Some module_fpath) ∈ all_module_attr_access g.
Proof.
  unfold to_check_imported_modules.
  rewrite elem_of_union, elem_of_dom, elem_of_set_omap.
  split; (intros [?|H]; [by left|right]).
  - destruct H as ([a o] & Hin & Ho). simpl in Ho. subst. by exists a.
  - destruct H as [a Hin]. by exists (a, Some module_fpath).
Qed.

(** ** The reconciler *)

Section ReconcilerFacts.
Context (env : Env) (imported_from attr_by_fpath : gmap string (gset string)).

Local Abbreviation reconcile := (reconcile_file env imported_from attr_by_fpath).
Local Abbreviation required := (required_set env imported_from attr_by_fpath).

(** A candidate that is read, not excluded and parsed reaches the
    comparison of its declared list with its usage. *)
Lemma reconcile_file_parsed m st text code :
  read_text env (fs st) (PyStr.join (rootDir env) [m]) = Some text →
  is_excluded env m = false →
  hd "" (PyStr.split_on "/" m) ∉ exclude_toplevel_module env →
  parse env text = inr code →
  reconcile m st = reconcile_parsed env imported_from attr_by_fpath m code st.
Proof.
  intros Hr He Ht Hp. unfold reconcile_file.
  by rewrite Hr, He, bool_decide_eq_false_2, Hp.
Qed.

Lemma reconcile_file_excluded m st :
  is_excluded env m = true → reconcile m st = (st, None) ∨ reconcile m st = (st, Some OSError).
Proof.
  intros He. unfold reconcile_file.
  destruct (read_text _ _ _); [|by right]. rewrite He. by left.
Qed.


End ReconcilerFacts.




(** ** What the specification states of [find__all__] *)

(** C2, as the code has it: when the first top-level assignment whose
    first target is the name [__all__] is not an assignment of a list
    literal of constants to that one target, the assertion that fails
    in [find__all__] ends the whole run: the loop over the candidate
    files stops at this file with the exception, and the files after it
    are not processed. *)
Theorem C2_malformed_first_declaration_is_fatal (env : Env)
    (imported_from attr_by_fpath : gmap string (gset string))
    (to_check : gset string) (done : list string) (m : string)
    (rest : list string) (st st' : rstate) (text : string)
    (before : list Ast.node) (stm : Ast.node) (after : list Ast.node) :
  PyStr.sorted (elements to_check) = done +++ m :: rest →
  iter_exn (reconcile_file env imported_from attr_by_fpath) done st = (st', None) →
  read_text env (fs st') (PyStr.join (rootDir env) [m]) = Some text →
  is_excluded env m = false →
  hd "" (PyStr.split_on "/" m) ∉ exclude_toplevel_module env →
  parse env text = inr (Module_ (before +++ stm :: after)) →
  Forall (fun s => export_decl s = false ∧ no_target s = false) before →
  export_decl stm = true →
  list_of_constants stm = false →
  find__all__ (Module_ (before +++ stm :: after)) = inl AssertionError
  ∧ reconcile_all env imported_from attr_by_fpath to_check st
    = (st', Some AssertionError).
Proof.
  intros Hs Hd Hr He Ht Hp Hb Hdecl Hbad.
  assert (Hf : find__all__ (Module_ (before +++ stm :: after)) = inl AssertionError).
  { unfold find__all__. simpl. rewrite find_in_body_skip by done.
    by apply find_in_body_malformed. }
  split; [done|].
  unfold reconcile_all. rewrite Hs.
  apply iter_exn_raises with (s' := st'); [done|].
  rewrite (reconcile_file_parsed _ _ _ _ _ text _) by done.
  unfold reconcile_parsed. by rewrite Hf.
Qed.

Lemma C2_witness :
  find__all__ Ex.tuple_decl = inl AssertionError
  ∧ reconcile_all Ex.env_decls {["bad.py" := {["a"]}; "zed.py" := {["q"]}]} ∅
      {["bad.py"; "zed.py"]} (Ex.start Ex.fs_decls)
    = (Ex.start Ex.fs_decls, Some AssertionError).
Proof.
  refine (C2_malformed_first_declaration_is_fatal Ex.env_decls
            {["bad.py" := {["a"]}; "zed.py" := {["q"]}]} ∅ {["bad.py"; "zed.py"]}
            [] "bad.py" ["zed.py"] (Ex.start Ex.fs_decls) (Ex.start Ex.fs_decls)
            "__all__ = ('a',)"
            [Ast.Expr (Ast.Constant (CStr "doc"))]
            (Ast.Assign [Ast.Name "__all__"] (Ast.Tuple [Ast.Constant (CStr "a")]))
            [] _ _ _ _ _ _ _ _ _).
  - by vm_compute.
  - reflexivity.
  - by vm_compute.
  - reflexivity.
  - vm_compute. set_solver.
  - reflexivity.
  - by repeat constructor.
  - reflexivity.
  - reflexivity.
Defined.

(** C2 as stated fails: [two.py] assigns [__all__] twice at top level,
    [find__all__] returns the first assignment, and the run ends
    without an exception. *)
Lemma C2_counterexample :
  body Ex.two_decls
  = [Ast.Assign [Ast.Name "__all__"] (Ast.List [Ast.Constant (CStr "a")]);
     Ast.Assign [Ast.Name "__all__"] (Ast.List [Ast.Constant (CStr "b")])]
  ∧ find__all__ Ex.two_decls
    = inr (Some (Ast.Assign [Ast.Name "__all__"] (Ast.List [Ast.Constant (CStr "a")]),
                 [CStr "a"]))
  ∧ (let '(g, st, e) := run Ex.env_decls Ex.fs_decls Ex.walk_decls in
     to_check_imported_modules g = {["two.py"]} ∧ e = None).
Proof. vm_compute. repeat split. Qed.

(** ** What one round of the reconciler can do *)

Section Outcome.
Context (env : Env) (imported_from attr_by_fpath : gmap string (gset string)).

Local Abbreviation required := (required_set env imported_from attr_by_fpath).

Lemma AddToAll_not_unused m m' l symbols :
  AddToAll m' l ∉ map (UnusedSymbol m) symbols.
Proof.
  induction symbols as [|x symbols IH]; simpl; [by intros ?%elem_of_nil|].
  intros [?|?]%elem_of_cons; done.
Qed.

Lemma quiet_refl st : quiet st st [].
Proof. unfold quiet. by rewrite app_nil_r. Qed.

Lemma emit_outcome m has_all X current st st' e :
  emit env m has_all X current st = (st', e) →
  let add_list := list_of_set env m (X ∖ current) in
  quiet st st' []
  ∨ (has_all = true ∧ e = None ∧ size X ≠ size current
     ∧ quiet st st' [AddToAll m add_list])
  ∨ (has_all = false ∧ e = None ∧ ∃ text, rewrote env m st st' add_list text).
Proof.
  intros H add_list. unfold emit in H.
  destruct (Nat.eqb (size X) (size current)) eqn:Hsz.
  { inversion H; subst. left. apply quiet_refl. }
  apply Nat.eqb_neq in Hsz.
  destruct has_all.
  { inversion H; subst. right. left. by repeat split. }
  simpl in H.
  destruct (read_text env (fs st) m) as [text|] eqn:Hr.
  - inversion H; subst. right. right. split; [done|]. split; [done|].
    exists text. by repeat split.
  - inversion H; subst. left. apply quiet_refl.
Qed.

(** One round either writes nothing, and then prints no list but the
    missing names of a module with a declared list, or it puts the
    required names in front of the text of one file. *)
Lemma reconcile_file_outcome m st st' e :
  reconcile_file env imported_from attr_by_fpath m st = (st', e) →
  ∃ current : gset constant,
    let add_list := list_of_set env m (required (fs st) m current ∖ current) in
    (∃ evs, quiet st st' evs
            ∧ ∀ m' l, AddToAll m' l ∈ evs → m' = m ∧ l = add_list)
    ∨ (∃ text, rewrote env m st st' add_list text).
Proof.
  unfold reconcile_file. intros H.
  assert (Hquiet : ∀ evs, (∀ m' l, AddToAll m' l ∉ evs) → quiet st st' evs →
    ∃ current : gset constant,
      let add_list := list_of_set env m (required (fs st) m current ∖ current) in
      (∃ evs, quiet st st' evs
              ∧ ∀ m' l, AddToAll m' l ∈ evs → m' = m ∧ l = add_list)
      ∨ (∃ text, rewrote env m st st' add_list text)).
  { intros evs Hno Hq. exists ∅. left. exists evs. split; [done|].
    intros m' l Hin. by destruct (Hno m' l). }
  assert (Hnil : ∀ m' l, AddToAll m' l ∉ []) by (intros ? ? ?%elem_of_nil; done).
  destruct (read_text env (fs st) _) as [text|].
  2: { inversion H; subst. apply (Hquiet []); [done|apply quiet_refl]. }
  destruct (is_excluded env m).
  { inversion H; subst. apply (Hquiet []); [done|apply quiet_refl]. }
  destruct (bool_decide _).
  { inversion H; subst. apply (Hquiet []); [done|apply quiet_refl]. }
  destruct (parse env text) as [err|code].
  { inversion H; subst. apply (Hquiet [FailedToParseModule m err]).
    - intros m' l Hin. set_solver.
    - by repeat split. }
  unfold reconcile_parsed in H.
  destruct (find__all__ code) as [ex|found].
  { inversion H; subst. apply (Hquiet []); [done|apply quiet_refl]. }
  cbv zeta in H.
  set (current := match found with Some (_, _all) => list_to_set _all | None => ∅ end) in *.
  destruct (bool_decide (required (fs st) m current = ∅)).
  { inversion H; subst. apply (Hquiet []); [done|]. by repeat split; simpl; rewrite ?app_nil_r. }
  destruct (bool_decide (is_Some found)) eqn:Hall.
  - destruct (PyRepr.sorted_set _) as [ex|symbols].
    { inversion H; subst. apply (Hquiet []); [done|].
      by repeat split; simpl; rewrite ?app_nil_r. }
    apply emit_outcome in H. simpl in H.
    exists current. left.
    destruct H as [(Hf & Hm & Hl)|[(_ & _ & _ & Hf & Hm & Hl)|(? & _)]]; [| |done].
    + exists (map (UnusedSymbol m) symbols). split.
      * repeat split; simpl in *; try done. by rewrite Hl, app_nil_r.
      * intros m' l Hin. by apply AddToAll_not_unused in Hin.
    + eexists (map (UnusedSymbol m) symbols +++ [AddToAll m _]). split.
      * repeat split; simpl in *; try done. by rewrite Hl, <- app_assoc.
      * intros m' l [Hin|Hin]%elem_of_app; [by apply AddToAll_not_unused in Hin|].
        apply list_elem_of_singleton in Hin. by inversion Hin.
  - apply emit_outcome in H. simpl in H.
    exists current.
    destruct H as [(Hf & Hm & Hl)|[(? & _)|(_ & _ & text' & Hr & Hf & Hm & Hl)]]; [|done|].
    + left. exists []. split; [by repeat split|]. intros m' l Hin. by destruct (Hnil m' l).
    + right. exists text'. by repeat split.
Qed.
End Outcome.

(** ** [sorted] *)

Lemma insert_sorted_perm x l : PyStr.insert_sorted x l ≡ₚ x :: l.
Proof.
  induction l as [|y l IH]; simpl; [done|].
  destruct (String.leb x y); [done|].
  rewrite IH. apply Permutation_swap.
Qed.

Lemma sorted_perm l : PyStr.sorted l ≡ₚ l.
Proof.
  induction l as [|x l IH]; simpl; [done|].
  unfold PyStr.sorted in *. simpl. by rewrite insert_sorted_perm, IH.
Qed.

Lemma all_strs_strings l :
  Forall (fun c => ∃ s, c = CStr s) l →
  ∃ strs, PyRepr.all_strs l = Some strs ∧ map CStr strs = l.
Proof.
  induction 1 as [|c l [s ->] _ (strs & Hs & Hm)]; simpl.
  - by exists [].
  - exists (s :: strs). rewrite Hs. simpl. by rewrite Hm.
Qed.

Lemma map_perm {A B : Type} (f : A → B) (l k : list A) :
  l ≡ₚ k → map f l ≡ₚ map f k.
Proof. induction 1; simpl; by econstructor. Qed.

(** Sorting a set of strings does not raise and yields its elements. *)
Lemma sorted_set_strings (X : gset constant) :
  (∀ c, c ∈ X → ∃ s, c = CStr s) →
  ∃ l, PyRepr.sorted_set X = inr l ∧ l ≡ₚ elements X.
Proof.
  intros HX. unfold PyRepr.sorted_set.
  destruct (Nat.leb (length (elements X)) 1); [by eexists|].
  destruct (all_strs_strings (elements X)) as (strs & -> & Hm).
  { apply Forall_forall. intros c Hc. apply HX. by apply elem_of_elements. }
  eexists. split; [done|]. rewrite <- Hm. apply map_perm, sorted_perm.
Qed.

(** ** What the specification states of the reconciler *)

Section ReconcilerClaims.
Context (env : Env) (imported_from attr_by_fpath : gmap string (gset string)).

Local Abbreviation reconcile := (reconcile_file env imported_from attr_by_fpath).
Local Abbreviation required := (required_set env imported_from attr_by_fpath).

(** A shadowed name that is not attribute-accessed is no required
    name beyond the declared ones. *)
Lemma shadowed_not_added files m current name :
  shadowed env files m name = true →
  name ∉ names2 attr_by_fpath m →
  CStr name ∉ required files m current ∖ current.
Proof.
  intros Hs Hn. unfold required_set. set_unfold.
  intros [[[[?|(n & Heq & Hneg & _)]|(n & Heq & Hin)] _] ?]; [done| |].
  - inversion Heq; subst. by rewrite Hs in Hneg.
  - inversion Heq; subst. done.
Qed.

(** The pairs recorded in [skipAllAdd]. *)
Lemma skipped_spec files m m' name :
  (m', name) ∈ skipped env imported_from files m
  ↔ m' = m ∧ name ∈ names1 imported_from m ∧ shadowed env files m name = true.
Proof.
  unfold skipped. set_unfold. split.
  - intros (n & Heq & Hs & Hin). inversion Heq; subst.
    by apply Is_true_true in Hs.
  - intros (-> & Hin & Hs). exists name. by rewrite Hs.
Qed.
End ReconcilerClaims.

(** C3, as the code has it: for a candidate file whose path ends in
    [/__init__.py], a name that is a sibling module file or directory
    and is not attribute-accessed on the file is in no list that the
    round writes in front of the file or prints as names to add; the
    test is made on from-imported names only.  Relative paths are taken
    to name files under the root directory. *)
Theorem C3_shadowed_from_import_left_out (env : Env)
    (imported_from attr_by_fpath : gmap string (gset string))
    (m name : string) (st st' : rstate) (e : option exn) :
  root_absolute env = true → at_root env → enumerates env →
  PyStr.endswith slashDunderInit m = true →
  isfile env (fs st)
    (PyStr.join (rootDir env) [PyStr.join (PyStr.dirname m) [name] ++ ".py"]) = true
  ∨ isdir env (fs st)
      (PyStr.join (rootDir env) [PyStr.join (PyStr.dirname m) [name]]) = true →
  name ∉ names2 attr_by_fpath m →
  reconcile_file env imported_from attr_by_fpath m st = (st', e) →
  (∃ evs, quiet st st' evs ∧ ∀ m' l, AddToAll m' l ∈ evs → CStr name ∉ l)
  ∨ (∃ l text, rewrote env m st st' l text ∧ CStr name ∉ l).
Proof.
  intros Habs Hroot Henum Hinit Hdisk Hn2 Hrun.
  assert (Hs : shadowed env (fs st) m name = true).
  { unfold shadowed. rewrite Hinit, andb_true_l. cbv zeta.
    rewrite (isfile_relative env (fs st) Habs Hroot
               (PyStr.join (PyStr.dirname m) [name] ++ ".py")),
            (isdir_relative env (fs st) Habs Hroot
               (PyStr.join (PyStr.dirname m) [name])).
    destruct Hdisk as [-> | ->]; [done|]. by rewrite orb_true_r. }
  destruct (reconcile_file_outcome env imported_from attr_by_fpath m st st' e Hrun)
    as (current & [(evs & Hq & Hev)|(text & Hw)]).
  - left. exists evs. split; [done|]. intros m' l Hin.
    destruct (Hev m' l Hin) as [_ ->].
    rewrite (Henum m _), elem_of_elements.
    by apply shadowed_not_added.
  - right. eexists _, text. split; [done|].
    rewrite (Henum m _), elem_of_elements.
    by apply shadowed_not_added.
Qed.

Lemma C3_witness :
  let r := reconcile_file Ex.env_pkg {["pkg/__init__.py" := {["sub"; "helper"]}]} ∅
             "pkg/__init__.py" (Ex.start Ex.fs_pkg) in
  (∃ evs, quiet (Ex.start Ex.fs_pkg) (fst r) evs
          ∧ ∀ m' l, AddToAll m' l ∈ evs → CStr "sub" ∉ l)
  ∨ (∃ l text, rewrote Ex.env_pkg "pkg/__init__.py" (Ex.start Ex.fs_pkg) (fst r) l text
               ∧ CStr "sub" ∉ l).
Proof.
  intros r.
  refine (C3_shadowed_from_import_left_out Ex.env_pkg
            {["pkg/__init__.py" := {["sub"; "helper"]}]} ∅
            "pkg/__init__.py" "sub" (Ex.start Ex.fs_pkg) (fst r) (snd r)
            _ _ _ _ _ _ _).
  - reflexivity.
  - intros p. reflexivity.
  - intros module_fpath X. reflexivity.
  - reflexivity.
  - left. by vm_compute.
  - vm_compute. set_solver.
  - subst r. apply surjective_pairing.
Defined.

(** C3 as stated fails: [sub] is accessed as an attribute of the
    package [pkg], [pkg/sub.py] exists next to [pkg/__init__.py], and
    the run writes a declaration that lists [sub] in front of the
    package-init file. *)
Lemma C3_counterexample :
  let '(g, st, e) := run Ex.env_pkg Ex.fs_pkg Ex.walk_pkg in
  e = None
  ∧ PyStr.endswith slashDunderInit "pkg/__init__.py" = true
  ∧ "sub" ∈ names2 (module_attr_access_by_fpath (all_module_attr_access g))
              "pkg/__init__.py"
  ∧ isfile Ex.env_pkg Ex.fs_pkg "/proj/pkg/sub.py" = true
  ∧ read_text Ex.env_pkg (fs st) "/proj/pkg/__init__.py"
    = Some (new_text [CStr "sub"] "VERSION = 1")
  ∧ PyRepr.repr_list [CStr "sub"] = "['sub']".
Proof.
  vm_compute. repeat split.
Qed.





(** ** Runs that modify nothing *)

Section Unmodified.
Context (env : Env) (imported_from attr_by_fpath : gmap string (gset string)).



End Unmodified.



(** ** Files that cannot be parsed or read *)

(** C7, as the code has it: a file that is read and cannot be parsed
    is skipped with a diagnostic naming the file and the error; in the
    walk it contributes no usage and the files after it are processed,
    in the reconciler nothing is written or recorded for it and the
    candidates after it are processed. *)
Theorem C7_unparsable_file_is_skipped (env : Env) (files : FS)
    (dirPath dirPathRel fname : string) (siblings subDirs rest : list string)
    (g : collected) (text err : string)
    (imported_from attr_by_fpath : gmap string (gset string))
    (m : string) (rest_m : list string) (st : rstate) (text_m err_m : string) :
  let fpath := PyStr.join dirPath [fname] in
  PyStr.endswith ".py" fname = true →
  is_excluded env fpath = false →
  is_excluded env (PyStr.drop_str (String.length (rootDir env)) fpath) = false →
  read_text env files fpath = Some text →
  parse env text = inl err →
  read_text env (fs st) (PyStr.join (rootDir env) [m]) = Some text_m →
  is_excluded env m = false →
  hd "" (PyStr.split_on "/" m) ∉ exclude_toplevel_module env →
  parse env text_m = inl err_m →
  let g' := MkCollected (cache g) (clog g +++ [FailedToParse fpath err])
              (imported_set g) (imported_from_by_module_path g)
              (all_module_attr_access g) in
  let st' := MkRstate (fs st) (rlog st +++ [FailedToParseModule m err_m])
               (modifiedFiles st) (skipAllAdd st) in
  processFile env files dirPath siblings dirPathRel fname subDirs g = (g', None)
  ∧ iter_exn (fun f => processFile env files dirPath siblings dirPathRel f subDirs)
      (fname :: rest) g
    = iter_exn (fun f => processFile env files dirPath siblings dirPathRel f subDirs)
        rest g'
  ∧ reconcile_file env imported_from attr_by_fpath m st = (st', None)
  ∧ iter_exn (reconcile_file env imported_from attr_by_fpath) (m :: rest_m) st
    = iter_exn (reconcile_file env imported_from attr_by_fpath) rest_m st'.
Proof.
  intros fpath Hpy He1 He2 Hr Hp Hrm Hem Htm Hpm g' st'.
  assert (H1 : processFile env files dirPath siblings dirPathRel fname subDirs g
               = (g', None)).
  { unfold processFile. fold fpath. by rewrite Hpy, He1, He2, Hr, Hp. }
  assert (H2 : reconcile_file env imported_from attr_by_fpath m st = (st', None)).
  { unfold reconcile_file. by rewrite Hrm, Hem, bool_decide_eq_false_2, Hpm. }
  repeat split; [done| |done|]; simpl; by rewrite ?H1, ?H2.
Qed.

Lemma C7_witness :
  processFile Ex.env_broken Ex.fs_broken "/proj" ["typo.py"; "main.py"] ""
    "typo.py" [] empty_collected
  = (MkCollected ∅ [FailedToParse "/proj/typo.py" "invalid syntax"] ∅ ∅ ∅, None)
  ∧ reconcile_file Ex.env_broken ∅ ∅ "typo.py" (Ex.start Ex.fs_broken)
    = (MkRstate Ex.fs_broken [FailedToParseModule "typo.py" "invalid syntax"] ∅ ∅,
       None).
Proof.
  assert (H := fun h1 h2 h3 h4 h5 h6 h7 h8 h9 =>
            C7_unparsable_file_is_skipped Ex.env_broken Ex.fs_broken
              "/proj" "" "typo.py" ["typo.py"; "main.py"] [] ["main.py"]
              empty_collected "def (:" "invalid syntax"
              ∅ ∅ "typo.py" [] (Ex.start Ex.fs_broken) "def (:" "invalid syntax"
              h1 h2 h3 h4 h5 h6 h7 h8 h9).
  destruct H as (H1 & _ & H2 & _).
  - reflexivity.
  - reflexivity.
  - reflexivity.
  - by vm_compute.
  - reflexivity.
  - by vm_compute.
  - reflexivity.
  - vm_compute. set_solver.
  - reflexivity.
  - split; [exact H1 | exact H2].
Defined.

(** C7 as stated fails: [broken.py] exists and cannot be read; the walk
    raises at it without a diagnostic and the run ends there, so that
    the import of [zed.py] in [main.py] is never collected, while the
    same tree without [broken.py] is processed to the end. *)
Lemma C7_counterexample :
  isfile Ex.env_broken Ex.fs_broken "/proj/broken.py" = true
  ∧ read_text Ex.env_broken Ex.fs_broken "/proj/broken.py" = None
  ∧ (let '(g, st, e) := run Ex.env_broken Ex.fs_broken Ex.walk_broken in
     e = Some OSError ∧ clog g = [] ∧ rlog st = []
     ∧ to_check_imported_modules g = ∅)
  ∧ (let '(g, st, e) :=
       run Ex.env_broken Ex.fs_broken [("/proj", [], ["main.py"; "zed.py"])] in
     e = None ∧ to_check_imported_modules g = {["zed.py"]}).
Proof. vm_compute. repeat split. Qed.

(** ** Files that are no candidates *)

Section Frame.
Context (env : Env) (imported_from attr_by_fpath : gmap string (gset string)).

(** A round writes at most the file that the path of the candidate
    names from the working directory. *)
Lemma reconcile_file_frame m st q :
  q ≠ abspath env m →
  fs_files (fs (fst (reconcile_file env imported_from attr_by_fpath m st))) !! q
  = fs_files (fs st) !! q.
Proof.
  intros Hq.
  destruct (reconcile_file env imported_from attr_by_fpath m st) as [st' e] eqn:Hrun.
  destruct (reconcile_file_outcome env imported_from attr_by_fpath m st st' e Hrun)
    as (current & [(evs & (Hf & _) & _)|(text & _ & Hf & _)]); simpl; rewrite Hf.
  - done.
  - unfold write_text. simpl. by rewrite lookup_insert_ne.
Qed.

Lemma reconcile_file_dirs m st :
  fs_dirs (fs (fst (reconcile_file env imported_from attr_by_fpath m st)))
  = fs_dirs (fs st).
Proof.
  destruct (reconcile_file env imported_from attr_by_fpath m st) as [st' e] eqn:Hrun.
  destruct (reconcile_file_outcome env imported_from attr_by_fpath m st st' e Hrun)
    as (current & [(evs & (Hf & _) & _)|(text & _ & Hf & _)]); simpl; by rewrite Hf.
Qed.

(** When relative paths name files under the root directory, the
    loop leaves every file that is no candidate as it was. *)
Lemma reconcile_all_frame to_check st q :
  at_root env →
  (∀ m, m ∈ to_check → q ≠ PyStr.join (rootDir env) [m]) →
  fs_files (fs (fst (reconcile_all env imported_from attr_by_fpath to_check st))) !! q
  = fs_files (fs st) !! q.
Proof.
  intros Hroot Hq. unfold reconcile_all.
  apply (iter_exn_invariant _
           (fun s => fs_files (fs s) !! q = fs_files (fs st) !! q)); [|done].
  intros m s0 Hm Hs0.
  rewrite sorted_perm, elem_of_elements in Hm.
  rewrite reconcile_file_frame; [done|].
  rewrite (Hroot m). by apply Hq.
Qed.
End Frame.

(** C9 at a failing input: the run is started in [/proj/sub/] on the
    tree rooted at [/proj/]; the only candidate is [a.py], the file
    [/proj/a.py] is read and left as it was, and [/proj/sub/a.py], which
    is no key of either map, is read and rewritten. *)
Theorem C9_file_outside_candidates_rewritten :
  let '(g, st, e) := run Ex.env_sub Ex.fs_sub Ex.walk_sub in
  e = None
  ∧ to_check_imported_modules g = {["a.py"]}
  ∧ imported_from_by_module_path g !! "sub/a.py" = None
  ∧ module_attr_access_by_fpath (all_module_attr_access g) !! "sub/a.py" = None
  ∧ fs_files Ex.fs_sub !! "/proj/sub/a.py" = Some (Some "print(1)")
  ∧ fs_files (fs st) !! "/proj/sub/a.py"
    = Some (Some (new_text [CStr "x"] "print(1)"))
  ∧ fs_files (fs st) !! "/proj/a.py" = Some (Some "def q(): pass")
  ∧ modifiedFiles st = {["a.py"]}.
Proof. vm_compute. repeat split. Qed.


(** ** The end-to-end example *)

(** The run gives [pkg/__init__.py] a declaration of exactly helper
    and extra and [pkg/util.py] one of exactly thing, and prints
    nothing. *)
Example end_to_end :
  let '(g, st, e) := run Ex.env_e2e Ex.fs_e2e Ex.walk_e2e in
  e = None
  ∧ to_check_imported_modules g = {["pkg/__init__.py"; "pkg/util.py"]}
  ∧ read_text Ex.env_e2e (fs st) "/proj/pkg/__init__.py"
    = Some (new_text [CStr "extra"; CStr "helper"] "VERSION = 1")
  ∧ read_text Ex.env_e2e (fs st) "/proj/pkg/util.py"
    = Some (new_text [CStr "thing"] "def q(): pass")
  ∧ modifiedFiles st = {["pkg/__init__.py"; "pkg/util.py"]}
  ∧ rlog st = []
  ∧ PyRepr.repr_list [CStr "extra"; CStr "helper"] = "['extra', 'helper']".
Proof. vm_compute. repeat split. Qed.

(** * Properties of the code that the specification leaves out *)

(** ** Strings and paths *)

Lemma app_cons_str a s t : String a s ++ t = String a (s ++ t).
Proof. reflexivity. Qed.

Lemma app_nil_r_str s : s ++ "" = s.
Proof. induction s as [|a s IH]; [done|]. by rewrite app_cons_str, IH. Qed.

Lemma app_assoc_str a b c : (a ++ b) ++ c = a ++ b ++ c.
Proof. induction a as [|x a IH]; [done|]. by rewrite !app_cons_str, IH. Qed.

Lemma rev_app_acc s acc : String.rev_app s acc = String.rev_app s "" ++ acc.
Proof.
  revert acc. induction s as [|a s IH]; intros acc; [done|].
  simpl. rewrite (IH (String a acc)), (IH (String a "")).
  by rewrite app_assoc_str.
Qed.

Lemma rev_app_app a b acc :
  String.rev_app (a ++ b) acc = String.rev_app b (String.rev_app a acc).
Proof.
  revert acc. induction a as [|x a IH]; intros acc; [done|].
  rewrite app_cons_str. simpl. apply IH.
Qed.

Lemma rev_app_str a b : String.rev (a ++ b) = String.rev b ++ String.rev a.
Proof. unfold String.rev. by rewrite rev_app_app, rev_app_acc. Qed.

Lemma startswith_app p s t :
  PyStr.startswith p s = true → PyStr.startswith p (s ++ t) = true.
Proof.
  revert s. induction p as [|a p IH]; intros s; [done|].
  destruct s as [|b s]; [done|]. rewrite app_cons_str. cbn [PyStr.startswith].
  destruct (Ascii.eqb a b); [apply IH|done].
Qed.

Lemma startswith_refl p : PyStr.startswith p p = true.
Proof.
  induction p as [|a p IH]; [done|]. cbn [PyStr.startswith].
  by rewrite Ascii.eqb_refl.
Qed.

Lemma endswith_app suffix a b :
  PyStr.endswith suffix b = true → PyStr.endswith suffix (a ++ b) = true.
Proof.
  unfold PyStr.endswith. intros H. rewrite rev_app_str. by apply startswith_app.
Qed.

Lemma endswith_refl s : PyStr.endswith s s = true.
Proof. apply startswith_refl. Qed.

Lemma startswith_sep_head s :
  PyStr.startswith "/" s
  = match s with String c _ => Ascii.eqb "/" c | EmptyString => false end.
Proof.
  destruct s as [|c s]; [done|]. cbn [PyStr.startswith].
  by destruct (Ascii.eqb "/" c).
Qed.

Lemma endswith_sep s : PyStr.endswith "/" s = ends_with_sep s.
Proof.
  unfold PyStr.endswith. change (String.rev "/") with "/". unfold String.rev.
  assert (H : ∀ acc, PyStr.startswith "/" (String.rev_app s acc)
                     = match s with
                       | EmptyString => PyStr.startswith "/" acc
                       | _ => ends_with_sep s
                       end).
  { induction s as [|a s IH]; intros acc; [done|].
    change (String.rev_app (String a s) acc) with (String.rev_app s (String a acc)).
    rewrite IH. destruct s as [|b s].
    - cbn [PyStr.startswith ends_with_sep]. by destruct (Ascii.eqb "/" a).
    - reflexivity. }
  rewrite H. by destruct s.
Qed.

Lemma ends_with_sep_app a b : b ≠ "" → ends_with_sep (a ++ b) = ends_with_sep b.
Proof.
  intros Hb. induction a as [|x a IH]; [done|].
  rewrite app_cons_str. simpl. rewrite IH.
  destruct (a ++ b) eqn:Hab; [|done].
  destruct a; [|done]. simpl in Hab. done.
Qed.

Lemma startswith_sep_app_l a b :
  a ≠ "" → PyStr.startswith "/" (a ++ b) = PyStr.startswith "/" a.
Proof.
  destruct a as [|x a]; [done|]. intros _.
  by rewrite app_cons_str, !startswith_sep_head.
Qed.

Lemma join2_app_suffix r p suffix :
  PyStr.startswith "/" suffix = false →
  PyStr.join2 r (p ++ suffix) = PyStr.join2 r p ++ suffix.
Proof.
  intros Hs. unfold PyStr.join2.
  destruct p as [|c p].
  - change ("" ++ suffix) with suffix. rewrite Hs.
    change (PyStr.startswith "/" "") with false. cbn [orb].
    destruct (String.eqb r ""); [done|].
    destruct (PyStr.endswith "/" r); by rewrite ?app_assoc_str.
  - rewrite startswith_sep_app_l by done.
    destruct (PyStr.startswith "/" (String c p)); [done|]. simpl.
    destruct (String.eqb r ""); [done|].
    destruct (PyStr.endswith "/" r); by rewrite ?app_assoc_str.
Qed.

Lemma join2_nil_l b : PyStr.join2 "" b = b.
Proof. unfold PyStr.join2. by rewrite orb_true_r. Qed.

Lemma join2_relative a b :
  PyStr.startswith "/" b = false → a ≠ "" →
  PyStr.join2 a b = a ++ glue a ++ b.
Proof.
  intros Hb Ha. unfold PyStr.join2, glue. rewrite Hb, endswith_sep.
  rewrite (proj2 (String.eqb_neq a "")) by done. cbn [orb].
  by destruct (ends_with_sep a).
Qed.

Lemma app_not_nil a b : a ≠ "" → a ++ b ≠ "".
Proof. by destruct a. Qed.

Lemma app_not_nil_r a b : b ≠ "" → a ++ b ≠ "".
Proof. destruct a; [done|]. by rewrite app_cons_str. Qed.

Lemma glue_app a b : b ≠ "" → glue (a ++ b) = glue b.
Proof. intros Hb. unfold glue. by rewrite ends_with_sep_app. Qed.

Lemma glue_glue r : glue (r ++ glue r) = "".
Proof.
  unfold glue. destruct (ends_with_sep r) eqn:Hr.
  - by rewrite app_nil_r_str, Hr.
  - by rewrite ends_with_sep_app.
Qed.

(** The components after the first can be joined first when the last
    one is relative. *)
Lemma join2_assoc r p i :
  PyStr.startswith "/" i = false →
  PyStr.join2 (PyStr.join2 r p) i = PyStr.join2 r (PyStr.join2 p i).
Proof.
  intros Hi.
  destruct (decide (r = "")) as [->|Hr]; [by rewrite !join2_nil_l|].
  destruct (PyStr.startswith "/" p) eqn:Hp.
  { rewrite (join2_absolute r p Hp).
    assert (Hpn : p ≠ "") by (intros ->; discriminate Hp).
    rewrite (join2_relative p i Hi Hpn).
    symmetry. apply join2_absolute.
    by rewrite startswith_sep_app_l. }
  destruct (decide (p = "")) as [->|Hpn].
  - rewrite join2_nil_l.
    rewrite (join2_relative r "" eq_refl Hr), app_nil_r_str.
    rewrite (join2_relative r i Hi Hr).
    rewrite join2_relative by (done || by apply app_not_nil).
    by rewrite glue_glue, app_assoc_str.
  - rewrite (join2_relative r p Hp Hr).
    rewrite (join2_relative p i Hi Hpn).
    rewrite (join2_relative (r ++ glue r ++ p) i Hi) by (by apply app_not_nil).
    rewrite (join2_relative r) by (done || by rewrite startswith_sep_app_l).
    rewrite (glue_app r (glue r ++ p)) by (by apply app_not_nil_r).
    rewrite (glue_app (glue r) p) by done.
    by rewrite !app_assoc_str.
Qed.

Lemma endswith_join2 suffix a i :
  PyStr.endswith suffix i = true →
  PyStr.endswith suffix (PyStr.join2 a i) = true.
Proof.
  intros Hs. unfold PyStr.join2.
  destruct (PyStr.startswith "/" i || String.eqb a ""); [done|].
  destruct (PyStr.endswith "/" a).
  - by apply endswith_app.
  - rewrite <- app_assoc_str. by apply endswith_app.
Qed.

Lemma join_from_absolute r l :
  PyStr.startswith "/" r = true → PyStr.startswith "/" (PyStr.join r l) = true.
Proof.
  revert r. induction l as [|x l IH]; intros r Hr; simpl; [done|].
  apply IH. by apply join2_from_absolute.
Qed.

(** ** The search for the root directory *)

Lemma root_candidates_absolute scanDir c :
  c ∈ root_candidates scanDir → PyStr.startswith "/" c = true.
Proof.
  unfold root_candidates. intros Hc.
  apply list_elem_of_In, in_map_iff in Hc as (count & <- & _).
  by apply join_from_absolute.
Qed.

(** The loop keeps the last tested directory that passes the test. *)
Lemma last_match_cases (P : string → bool) (l : list string) (d : string) :
  let r := fold_left (fun acc c => if P c then c else acc) l d in
  (r = d ∧ Forall (fun c => P c = false) l)
  ∨ (∃ l1 l2, l = l1 +++ r :: l2 ∧ P r = true ∧ Forall (fun c => P c = false) l2).
Proof.
  revert d. induction l as [|c l IH]; intros d; simpl.
  - left. by split.
  - destruct (P c) eqn:Hc.
    + destruct (IH c) as [[Hr Hall]|(l1 & l2 & Hl & Hr & Hall)].
      * right. exists [], l. rewrite Hr. by repeat split.
      * right. exists (c :: l1), l2. split; [|done]. simpl. by f_equal.
    + destruct (IH d) as [[Hr Hall]|(l1 & l2 & Hl & Hr & Hall)].
      * left. split; [done|]. by constructor.
      * right. exists (c :: l1), l2. split; [|done]. simpl. by f_equal.
Qed.

Lemma endswith_with_sep d : PyStr.endswith "/" (with_sep d) = true.
Proof.
  unfold with_sep. destruct (PyStr.endswith "/" d) eqn:H; [done|].
  apply endswith_app. done.
Qed.

Lemma startswith_with_sep d :
  PyStr.startswith "/" d = true → PyStr.startswith "/" (with_sep d) = true.
Proof.
  unfold with_sep. destruct (PyStr.endswith "/" d); [done|].
  apply startswith_sep_app.
Qed.

Lemma join2_with_sep d i :
  d ≠ "" → PyStr.join2 (with_sep d) i = PyStr.join2 d i.
Proof.
  intros Hd. unfold with_sep. destruct (PyStr.endswith "/" d) eqn:He; [done|].
  unfold PyStr.join2. destruct (PyStr.startswith "/" i); [done|]. cbn [orb].
  rewrite He.
  rewrite (proj2 (String.eqb_neq d "")) by done.
  rewrite (proj2 (String.eqb_neq (d ++ "/") "")) by (by apply app_not_nil).
  rewrite endswith_app by done. by rewrite app_assoc_str.
Qed.

(** X1: the root directory computed from an absolute scan directory
    is an absolute path that ends with the separator, whatever the
    file system holds. *)
Theorem find_rootDir_well_formed (env : Env) (files : FS) (scanDir : string) :
  PyStr.startswith "/" scanDir = true →
  PyStr.endswith "/" (find_rootDir env files scanDir) = true
  ∧ PyStr.startswith "/" (find_rootDir env files scanDir) = true.
Proof.
  intros Habs. unfold find_rootDir. split; [apply endswith_with_sep|].
  apply startswith_with_sep.
  pose proof (last_match_cases (has_pyproject env files) (root_candidates scanDir)
                scanDir) as H.
  cbv zeta in H.
  set (r := fold_left _ _ _) in *.
  destruct H as [[-> _]|(l1 & l2 & Hl & _ & _)]; [done|].
  apply (root_candidates_absolute scanDir). rewrite Hl.
  apply elem_of_app. right. apply list_elem_of_here.
Qed.

Lemma find_rootDir_well_formed_witness :
  PyStr.endswith "/" (find_rootDir Ex.env_plain Ex.fs_roots "/proj/src/pkg") = true
  ∧ PyStr.startswith "/" (find_rootDir Ex.env_plain Ex.fs_roots "/proj/src/pkg") = true.
Proof.
  apply (find_rootDir_well_formed Ex.env_plain Ex.fs_roots "/proj/src/pkg").
  reflexivity.
Defined.

(** X2: when several directories on the way from the scan directory
    up hold a [pyproject.toml], the root directory is the topmost of
    them, not the nearest, and the read of [pyproject.toml] under it
    at line 53 finds a file. *)
Theorem find_rootDir_topmost (env : Env) (files : FS) (scanDir : string)
    (deeper : list string) (dir : string) (higher : list string) :
  root_candidates scanDir = deeper +++ dir :: higher →
  has_pyproject env files dir = true →
  Forall (fun c => has_pyproject env files c = false) higher →
  find_rootDir env files scanDir = with_sep dir
  ∧ isfile env files (PyStr.join (find_rootDir env files scanDir) ["pyproject.toml"])
    = true.
Proof.
  intros Hl Hd Hh.
  assert (Hr : fold_left
                 (fun rootDir _testDir =>
                    if has_pyproject env files _testDir then _testDir else rootDir)
                 (root_candidates scanDir) scanDir = dir).
  { rewrite Hl, fold_left_app. simpl. rewrite Hd.
    clear Hl. induction Hh as [|c higher Hc _ IH]; simpl; [done|]. by rewrite Hc. }
  unfold find_rootDir. rewrite Hr. split; [done|].
  simpl. rewrite join2_with_sep; [exact Hd|].
  assert (Habs : PyStr.startswith "/" dir = true).
  { apply (root_candidates_absolute scanDir). rewrite Hl.
    apply elem_of_app. right. apply list_elem_of_here. }
  intros ->. discriminate Habs.
Qed.

Lemma find_rootDir_topmost_witness :
  find_rootDir Ex.env_plain Ex.fs_roots "/proj/src/pkg" = "/proj/"
  ∧ isfile Ex.env_plain Ex.fs_roots
      (PyStr.join (find_rootDir Ex.env_plain Ex.fs_roots "/proj/src/pkg")
         ["pyproject.toml"]) = true.
Proof.
  refine (find_rootDir_topmost Ex.env_plain Ex.fs_roots "/proj/src/pkg"
            ["/proj/src/pkg"; "/proj/src"] "/proj" [] _ _ _).
  - reflexivity.
  - by vm_compute.
  - constructor.
Defined.

(** X3: when no tested directory holds a [pyproject.toml], the root
    directory is the scan directory itself, with the separator at its
    end. *)
Theorem find_rootDir_default (env : Env) (files : FS) (scanDir : string) :
  Forall (fun c => has_pyproject env files c = false) (root_candidates scanDir) →
  find_rootDir env files scanDir = with_sep scanDir.
Proof.
  intros Hall. unfold find_rootDir. f_equal.
  induction Hall as [|c l Hc _ IH]; simpl; [done|]. by rewrite Hc.
Qed.

Lemma find_rootDir_default_witness :
  find_rootDir Ex.env_plain Ex.fs_bare_dir "/proj/src/pkg" = "/proj/src/pkg/".
Proof.
  refine (find_rootDir_default Ex.env_plain Ex.fs_bare_dir "/proj/src/pkg" _).
  by repeat constructor.
Defined.

(** ** The candidate path of a reference *)

Lemma component_relative c : component c = true → PyStr.startswith "/" c = false.
Proof.
  unfold component. intros [_ H]%andb_true_iff. apply negb_true_iff in H.
  destruct c as [|a c]; [done|]. rewrite startswith_sep_head.
  cbn [PyRepr.contains_char] in H. apply orb_false_iff in H as [H _].
  by rewrite Ascii.eqb_sym.
Qed.

Lemma no_sep_not_ends c : PyRepr.contains_char "/" c = false → ends_with_sep c = false.
Proof.
  induction c as [|a c IH]; [done|]. cbn [PyRepr.contains_char ends_with_sep].
  intros [Ha Hc]%orb_false_iff. destruct c as [|b c]; [|by apply IH].
  by rewrite Ascii.eqb_sym.
Qed.

Lemma component_facts c :
  component c = true → c ≠ "" ∧ PyStr.startswith "/" c = false ∧ ends_with_sep c = false.
Proof.
  intros H. split; [|split; [by apply component_relative|]].
  - unfold component in H. apply andb_true_iff in H as [H _].
    apply negb_true_iff in H. by apply String.eqb_neq in H.
  - unfold component in H. apply andb_true_iff in H as [_ H].
    apply negb_true_iff in H. by apply no_sep_not_ends.
Qed.

Lemma join_components parts acc :
  Forall (fun c => component c = true) parts →
  acc ≠ "" → ends_with_sep acc = false →
  PyStr.join acc parts = acc ++ slashed parts.
Proof.
  unfold PyStr.join. intros H. revert acc.
  induction H as [|c parts Hc _ IH]; intros acc Ha He; simpl.
  - by rewrite app_nil_r_str.
  - destruct (component_facts c Hc) as (Hne & Hrel & Hend).
    rewrite (join2_relative acc c Hrel Ha). unfold glue. rewrite He.
    rewrite IH.
    + by rewrite !app_assoc_str.
    + by apply app_not_nil.
    + rewrite ends_with_sep_app by (by apply app_not_nil_r).
      by rewrite ends_with_sep_app.
Qed.

Lemma split_on_not_nil c s : PyStr.split_on c s ≠ [].
Proof. destruct s as [|a s]; simpl; [done|]. by repeat case_match. Qed.

Lemma split_on_replace s main rest :
  PyStr.split_on "." s = main :: rest →
  main ++ slashed rest = PyStr.replace_char "." "/" s.
Proof.
  revert main rest. induction s as [|a s IH]; intros main rest; simpl.
  - intros H. by inversion H.
  - destruct (Ascii.eqb a ".") eqn:Ha.
    + intros H. inversion H; subst.
      destruct (PyStr.split_on "." s) as [|h t] eqn:Hs;
        [by apply split_on_not_nil in Hs|].
      simpl. rewrite (IH h t eq_refl). done.
    + destruct (PyStr.split_on "." s) as [|h t] eqn:Hs;
        [by apply split_on_not_nil in Hs|].
      intros H. inversion H; subst.
      rewrite app_cons_str. by rewrite (IH h rest eq_refl).
Qed.

(** X4: a dotted reference whose first component names no sibling
    file and no subdirectory of the referencing directory is looked up
    from the root: its candidate path is the reference with every dot
    replaced by the separator, whatever the referencing directory. *)
Theorem candidate_path_absolute (module dirPathRel : string)
    (subDirs siblings : list string) :
  let main := hd "" (PyStr.split_on "." module) in
  PyStr.mem main siblings = false →
  PyStr.mem (main ++ ".py") siblings = false →
  PyStr.mem main subDirs = false →
  Forall (fun c => component c = true) (PyStr.split_on "." module) →
  candidate_path module dirPathRel subDirs siblings
  = PyStr.replace_char "." "/" module.
Proof.
  intros main H1 H2 H3 Hc. unfold candidate_path, candidate_parts.
  fold main. rewrite H1, H2, H3. simpl.
  destruct (PyStr.split_on "." module) as [|m rest] eqn:Hs;
    [by apply split_on_not_nil in Hs|].
  simpl. inversion Hc as [|? ? Hm Hrest]; subst.
  destruct (component_facts m Hm) as (Hne & _ & Hend).
  rewrite join_components by done.
  by apply split_on_replace.
Qed.

Lemma candidate_path_absolute_witness :
  candidate_path "pkg.util" "app" [] ["main.py"] = "pkg/util".
Proof.
  refine (candidate_path_absolute "pkg.util" "app" [] ["main.py"] _ _ _ _).
  - reflexivity.
  - reflexivity.
  - reflexivity.
  - by repeat constructor.
Defined.

Lemma cut_last_sep_spec p :
  let '(h, t) := PyStr.cut_last_sep p in
  h ++ t = p
  ∧ PyRepr.contains_char "/" t = false
  ∧ (h = "" ∨ ends_with_sep h = true).
Proof.
  induction p as [|c p IH]; [by repeat split; left|].
  cbn [PyStr.cut_last_sep].
  destruct (PyStr.cut_last_sep p) as [h t]. destruct IH as (Hp & Ht & Hh).
  destruct (Ascii.eqb c "/") eqn:Hc.
  - split; [by rewrite app_cons_str, Hp|]. split; [done|]. right.
    destruct Hh as [->|Hh].
    + cbn [ends_with_sep]. by rewrite Ascii.eqb_sym.
    + destruct h; [done|]. done.
  - destruct h as [|b h].
    + split; [by rewrite <- Hp|]. split; [|by left].
      cbn [PyRepr.contains_char]. by rewrite Hc, Ht.
    + split; [by rewrite app_cons_str, Hp|]. split; [done|]. right.
      destruct Hh as [?|Hh]; done.
Qed.

Lemma ends_with_sep_inv h : ends_with_sep h = true → ∃ x, h = x ++ "/".
Proof.
  induction h as [|c h IH]; [done|]. destruct h as [|b h].
  - cbn [ends_with_sep]. intros Hc. apply Ascii.eqb_eq in Hc. subst.
    by exists "".
  - intros H. destruct (IH H) as [x Hx]. exists (String c x).
    by rewrite app_cons_str, <- Hx.
Qed.

Lemma no_double_sep_before x t :
  no_double_sep (x ++ "/" ++ t) = true → ends_with_sep x = false.
Proof.
  induction x as [|a x IH]; [done|]. rewrite app_cons_str.
  cbn [no_double_sep]. intros [Ha Hx]%andb_true_iff.
  destruct x as [|b x].
  - cbn [ends_with_sep]. apply negb_true_iff in Ha.
    change ("" ++ "/" ++ t) with (String "/" t) in Ha.
    rewrite startswith_sep_head, Ascii.eqb_refl, andb_true_r in Ha.
    by rewrite Ascii.eqb_sym.
  - by apply IH.
Qed.

Lemma rstrip_sep_kept x : ends_with_sep x = false → PyStr.rstrip_sep x = x.
Proof.
  induction x as [|c x IH]; [done|]. destruct x as [|b x].
  - cbn [ends_with_sep PyStr.rstrip_sep]. intros H.
    rewrite Ascii.eqb_sym in H. by rewrite H.
  - intros H. specialize (IH H).
    remember (String b x) as y eqn:Hy.
    cbn [PyStr.rstrip_sep]. rewrite IH. by subst y.
Qed.

Lemma rstrip_sep_app_sep x : PyStr.rstrip_sep (x ++ "/") = PyStr.rstrip_sep x.
Proof.
  induction x as [|c x IH]; [done|].
  rewrite app_cons_str. cbn [PyStr.rstrip_sep]. by rewrite IH.
Qed.

Lemma all_sep_not_ends x : x ≠ "" → ends_with_sep x = false → PyStr.all_sep x = false.
Proof.
  induction x as [|c x IH]; [done|]. intros _. destruct x as [|b x].
  - cbn [ends_with_sep PyStr.all_sep]. intros H.
    rewrite Ascii.eqb_sym in H. by rewrite H.
  - intros H. assert (Hy : PyStr.all_sep (String b x) = false) by (by apply IH).
    remember (String b x) as y eqn:Heqy.
    cbn [PyStr.all_sep]. rewrite Hy. apply andb_false_r.
Qed.

Lemma all_sep_app x y : PyStr.all_sep (x ++ y) = PyStr.all_sep x && PyStr.all_sep y.
Proof.
  induction x as [|c x IH]; [done|].
  rewrite app_cons_str. cbn [PyStr.all_sep]. by rewrite IH, andb_assoc.
Qed.

(** [os.path.split] is undone by [os.path.join] on a directory path
    of the walk. *)
Lemma split_join d :
  walked_dir d = true →
  PyStr.join2 (fst (PyStr.split d)) (snd (PyStr.split d)) = d.
Proof.
  unfold walked_dir. intros [[Hrel Hend]%andb_true_iff Hdbl]%andb_true_iff.
  apply negb_true_iff in Hrel, Hend.
  unfold PyStr.split. pose proof (cut_last_sep_spec d) as H.
  destruct (PyStr.cut_last_sep d) as [h t]. destruct H as (Hd & Ht & Hh).
  simpl. destruct Hh as [->|Hh].
  - simpl in Hd. subst. unfold PyStr.strip_head. simpl. apply join2_nil_l.
  - destruct (ends_with_sep_inv h Hh) as [x ->].
    rewrite app_assoc_str in Hd.
    assert (Hx : ends_with_sep x = false).
    { apply (no_double_sep_before x t). by rewrite Hd. }
    assert (Hxn : x ≠ "").
    { intros ->. subst d. discriminate Hrel. }
    unfold PyStr.strip_head.
    rewrite (proj2 (String.eqb_neq (x ++ "/") "")) by (by apply app_not_nil).
    rewrite all_sep_app, all_sep_not_ends by done. simpl.
    rewrite rstrip_sep_app_sep, rstrip_sep_kept by done.
    rewrite join2_relative.
    + unfold glue. by rewrite Hx.
    + destruct t as [|a t]; [done|]. rewrite startswith_sep_head.
      cbn [PyRepr.contains_char] in Ht. apply orb_false_iff in Ht as [Ht _].
      by rewrite Ascii.eqb_sym.
    + done.
Qed.

(** X5: a dotted reference whose first component names a sibling
    file, with or without the source extension, or a subdirectory is
    looked up from the referencing directory: its candidate path is
    that directory, the separator, and the reference with every dot
    replaced by the separator. *)
Theorem candidate_path_relative (module dirPathRel : string)
    (subDirs siblings : list string) :
  let main := hd "" (PyStr.split_on "." module) in
  PyStr.mem main siblings || PyStr.mem (main ++ ".py") siblings
    || PyStr.mem main subDirs = true →
  walked_dir dirPathRel = true →
  Forall (fun c => component c = true) (PyStr.split_on "." module) →
  candidate_path module dirPathRel subDirs siblings
  = if String.eqb dirPathRel "" then PyStr.replace_char "." "/" module
    else dirPathRel ++ "/" ++ PyStr.replace_char "." "/" module.
Proof.
  intros main Hsib Hd Hc. unfold candidate_path, candidate_parts.
  fold main. rewrite Hsib.
  pose proof (split_join dirPathRel Hd) as Hj.
  destruct (PyStr.split dirPathRel) as [h t]. simpl in Hj.
  destruct (PyStr.split_on "." module) as [|m rest] eqn:Hs;
    [by apply split_on_not_nil in Hs|].
  unfold join_parts, PyStr.join. simpl. rewrite Hj.
  apply Forall_cons in Hc as [Hm Hrest].
  destruct (component_facts m Hm) as (Hne & Hrel & Hend).
  destruct (String.eqb dirPathRel "") eqn:He.
  - apply String.eqb_eq in He. rewrite He, join2_nil_l.
    change (fold_left PyStr.join2 rest m) with (PyStr.join m rest).
    rewrite join_components by done. by apply split_on_replace.
  - apply String.eqb_neq in He.
    change (fold_left PyStr.join2 rest (PyStr.join2 dirPathRel m))
      with (PyStr.join dirPathRel (m :: rest)).
    unfold walked_dir in Hd.
    apply andb_true_iff in Hd as [[_ Hde]%andb_true_iff _].
    apply negb_true_iff in Hde.
    rewrite join_components by (done || by constructor).
    cbn [slashed]. by rewrite (split_on_replace module m rest Hs).
Qed.

Lemma candidate_path_relative_witness :
  candidate_path "helpers.io" "pkg/sub" [] ["helpers.py"; "main.py"]
  = "pkg/sub/helpers/io".
Proof.
  refine (candidate_path_relative "helpers.io" "pkg/sub" [] ["helpers.py"; "main.py"]
            _ _ _).
  - reflexivity.
  - reflexivity.
  - by repeat constructor.
Defined.

(** ** What resolution returns and prints *)

Lemma body_resolved env files module dirPathRel subDirs siblings silent p :
  fst (moduleFilePath_body env files module dirPathRel subDirs siblings silent) = Some p →
  resolved env files p.
Proof.
  unfold moduleFilePath_body, resolved. intros H.
  destruct (String.eqb module ""); [done|].
  destruct (PyStr.split_on "." module) as [|main rest]; [done|].
  destruct (bool_decide (main ∈ stdlib_module_names env)); [done|].
  destruct (bool_decide (main ∈ exclude_toplevel_module env)); [done|].
  set (pathRel := join_parts _) in *.
  destruct (isdir env files _).
  - destruct (isfile env files _) eqn:Hf; [|done].
    simpl in H. inversion H; subst p. split.
    + simpl in *. by rewrite <- join2_assoc.
    + by apply endswith_join2.
  - destruct (isfile env files _) eqn:Hf; [|done].
    simpl in H. inversion H; subst p. split.
    + simpl in *. by rewrite join2_app_suffix.
    + apply endswith_app, endswith_refl.
Qed.

(** X6: a path that the resolver returns names an existing file under
    the root directory and ends with the source extension. *)
Theorem resolved_path_exists (env : Env) (files : FS)
    (module dirPathRel : string) (subDirs siblings : list string)
    (silent : bool) (g : collected) (p : string) :
  cache_ok env files (cache g) →
  fst (moduleFilePath env files module dirPathRel subDirs siblings silent g) = Some p →
  isfile env files (PyStr.join (rootDir env) [p]) = true
  ∧ PyStr.endswith ".py" p = true.
Proof.
  intros Hc Hp. rewrite moduleFilePath_result in Hp by done.
  by apply body_resolved in Hp.
Qed.

Lemma resolved_path_exists_witness :
  isfile Ex.env_e2e Ex.fs_e2e (PyStr.join (rootDir Ex.env_e2e) ["pkg/util.py"]) = true
  ∧ PyStr.endswith ".py" "pkg/util.py" = true.
Proof.
  refine (resolved_path_exists Ex.env_e2e Ex.fs_e2e "pkg.util" "" ["pkg"] ["main.py"]
            false empty_collected "pkg/util.py" _ _).
  - apply cache_ok_empty.
  - by vm_compute.
Defined.

(** X7: a call of the memoized resolver repeated on the state that the
    first call left returns the same result and changes nothing: the
    diagnostic of an unresolved reference is printed once. *)
Lemma moduleFilePath_repeat env files module dirPathRel subDirs siblings silent g :
  let r := moduleFilePath env files module dirPathRel subDirs siblings silent g in
  moduleFilePath env files module dirPathRel subDirs siblings silent (snd r)
  = (fst r, snd r).
Proof.
  unfold moduleFilePath.
  destruct (cache g !! _) as [r0|] eqn:Hl; simpl.
  - by rewrite Hl.
  - destruct (moduleFilePath_body _ _ _ _ _ _ _) as [r0 evs]. simpl.
    by rewrite lookup_insert_eq.
Qed.

Lemma body_silent env files module dirPathRel subDirs siblings :
  fst (moduleFilePath_body env files module dirPathRel subDirs siblings true)
  = fst (moduleFilePath_body env files module dirPathRel subDirs siblings false)
  ∧ snd (moduleFilePath_body env files module dirPathRel subDirs siblings true) = [].
Proof.
  unfold moduleFilePath_body. repeat case_match; done.
Qed.

Lemma body_prints_at_most_one env files module dirPathRel subDirs siblings silent :
  let r := moduleFilePath_body env files module dirPathRel subDirs siblings silent in
  snd r = []
  ∨ (silent = false ∧ fst r = None
     ∧ snd r = [UnknownModule module
                  (candidate_path module dirPathRel subDirs siblings) dirPathRel]).
Proof.
  intros r. subst r.
  destruct (decide (module = "")) as [->|Hne]; [by left|].
  destruct (decide (hd "" (PyStr.split_on "." module) ∈ stdlib_module_names env))
    as [Hs|Hs].
  { left. rewrite body_builtin_or_excluded; [done|set_solver]. }
  destruct (decide (hd "" (PyStr.split_on "." module) ∈ exclude_toplevel_module env))
    as [He|He].
  { left. rewrite body_builtin_or_excluded; [done|set_solver]. }
  rewrite body_unfold by done. cbv zeta.
  repeat case_match; simpl; auto.
Qed.

(** X8: [silent=True] changes the output only: the silent call
    returns what the other returns and prints nothing, and the call
    that is not silent prints nothing or, when it returns nothing, the
    one diagnostic of the unresolved reference. *)
Theorem silent_changes_only_output (env : Env) (files : FS)
    (module dirPathRel : string) (subDirs siblings : list string) (g : collected) :
  cache_ok env files (cache g) →
  let quietly := moduleFilePath env files module dirPathRel subDirs siblings true g in
  let loudly := moduleFilePath env files module dirPathRel subDirs siblings false g in
  fst quietly = fst loudly
  ∧ clog (snd quietly) = clog g
  ∧ (clog (snd loudly) = clog g
     ∨ (fst loudly = None
        ∧ clog (snd loudly)
          = clog g +++ [UnknownModule module
                          (candidate_path module dirPathRel subDirs siblings)
                          dirPathRel])).
Proof.
  intros Hc quietly loudly. subst quietly loudly.
  destruct (body_silent env files module dirPathRel subDirs siblings) as [Hf Hs].
  split; [by rewrite !moduleFilePath_result, Hf|].
  split.
  - rewrite moduleFilePath_log, Hs. destruct (cache g !! _); apply app_nil_r.
  - rewrite moduleFilePath_log, moduleFilePath_result by done.
    destruct (cache g !! _); [left; apply app_nil_r|].
    destruct (body_prints_at_most_one env files module dirPathRel subDirs siblings
                false) as [H|(_ & H1 & H2)].
    + left. rewrite H. apply app_nil_r.
    + right. by rewrite H2.
Qed.

Lemma moduleFilePath_silent_witness :
  let quietly := moduleFilePath Ex.env_e2e Ex.fs_e2e "nowhere" "" ["pkg"] ["main.py"]
                   true empty_collected in
  let loudly := moduleFilePath Ex.env_e2e Ex.fs_e2e "nowhere" "" ["pkg"] ["main.py"]
                  false empty_collected in
  fst quietly = fst loudly
  ∧ clog (snd quietly) = clog empty_collected
  ∧ (clog (snd loudly) = clog empty_collected
     ∨ (fst loudly = None
        ∧ clog (snd loudly)
          = clog empty_collected
            +++ [UnknownModule "nowhere"
                   (candidate_path "nowhere" "" ["pkg"] ["main.py"]) ""])).
Proof.
  apply (silent_changes_only_output Ex.env_e2e Ex.fs_e2e "nowhere" "" ["pkg"]
           ["main.py"] empty_collected).
  apply cache_ok_empty.
Defined.

(** X9: after a walk that started with an empty memo table, a
    memoized call returns what a fresh evaluation on the same
    arguments returns: no stored result is stale. *)
Lemma walk_resolution_pure env files walk g e module dirPathRel subDirs siblings silent :
  collect env files walk empty_collected = (g, e) →
  fst (moduleFilePath env files module dirPathRel subDirs siblings silent g)
  = fst (moduleFilePath_body env files module dirPathRel subDirs siblings silent).
Proof.
  intros Hc. apply moduleFilePath_result.
  pose proof (collect_cache_ok env files walk empty_collected (cache_ok_empty _ _)) as H.
  by rewrite Hc in H.
Qed.

Lemma walk_resolution_pure_witness :
  let r := collect Ex.env_e2e Ex.fs_e2e Ex.walk_e2e empty_collected in
  fst (moduleFilePath Ex.env_e2e Ex.fs_e2e "pkg.util" "" ["pkg"] ["main.py"] false
         (fst r))
  = fst (moduleFilePath_body Ex.env_e2e Ex.fs_e2e "pkg.util" "" ["pkg"] ["main.py"]
           false).
Proof.
  intros r.
  apply (walk_resolution_pure Ex.env_e2e Ex.fs_e2e Ex.walk_e2e (fst r) (snd r)).
  subst r. by destruct (collect _ _ _ _).
Defined.

(** ** Every recorded path is a resolved path *)

Section ResolvedPaths.
Context (env : Env) (files : FS).

Lemma paths_resolved_empty : paths_resolved env files empty_collected.
Proof.
  split; [apply cache_ok_empty|]. split.
  - intros p [x Hx]. simpl in Hx. by rewrite lookup_empty in Hx.
  - intros a p Hin. simpl in Hin. by apply elem_of_empty in Hin.
Qed.

(** A memoized call keeps the invariant and returns a resolved path. *)
Lemma moduleFilePath_resolved module dirPathRel subDirs siblings silent g :
  paths_resolved env files g →
  paths_resolved env files
    (snd (moduleFilePath env files module dirPathRel subDirs siblings silent g))
  ∧ ∀ p, fst (moduleFilePath env files module dirPathRel subDirs siblings silent g)
         = Some p → resolved env files p.
Proof.
  intros (Hc & Hfrom & Hattr). split.
  - destruct (moduleFilePath_usage env files module dirPathRel subDirs siblings
                silent g) as (_ & H2 & H3).
    split; [by apply moduleFilePath_cache_ok|].
    rewrite H2, H3. by split.
  - intros p Hp. rewrite moduleFilePath_result in Hp by done.
    by apply body_resolved in Hp.
Qed.

Context (dirPathRel : string) (subDirs siblings : list string).

Lemma handleImport_resolved names s :
  bindings_resolved env files s →
  bindings_resolved env files
    (handleImport env files dirPathRel subDirs siblings names s).
Proof.
  unfold handleImport. revert s.
  apply (fold_left_preserves (bindings_resolved env files)).
  intros s a [Hg Hb]. unfold handleImport_name.
  destruct (moduleFilePath_resolved (Ast.name a) dirPathRel subDirs siblings false
              (glob s) Hg) as [Hg' Hres].
  destruct (moduleFilePath _ _ _ _ _ _ _ _) as [[p|] g]; simpl in *.
  - split; [exact Hg'|]. simpl. intros k n q Hk.
    destruct (decide (bound_name a = k)) as [<-|Hne].
    + rewrite lookup_insert_eq in Hk. inversion Hk; subst. by apply Hres.
    + rewrite lookup_insert_ne in Hk by done. by eapply Hb.
  - by split.
Qed.

Lemma handleImportFrom_resolved module names s :
  bindings_resolved env files s →
  bindings_resolved env files
    (handleImportFrom env files dirPathRel subDirs siblings module names s).
Proof.
  intros [Hg Hb]. unfold handleImportFrom.
  match goal with
  | |- context [moduleFilePath env files ?m _ _ _ _ _] =>
      destruct (moduleFilePath_resolved m dirPathRel subDirs siblings false
                  (glob s) Hg) as [Hg' Hres];
      destruct (moduleFilePath env files m dirPathRel subDirs siblings false (glob s))
        as [[p|] g]; simpl in *; [|by split]
  end.
  assert (Hp : resolved env files p) by (by apply Hres).
  match goal with
  | |- bindings_resolved _ _ (fold_left (handleImportFrom_name _ _ _ _ _ ?m p) _ _) =>
      set (mod_ := m)
  end.
  apply (fold_left_preserves
           (fun s => bindings_resolved env files s)).
  - intros s0 a [Hg0 Hb0]. unfold handleImportFrom_name.
    destruct (String.eqb (Ast.name a) ""); [by split|].
    destruct (moduleFilePath_resolved (mod_ ++ "." ++ Ast.name a) dirPathRel
                subDirs siblings true (glob s0) Hg0) as [(Hc1 & Hf1 & Ha1) Hres1].
    destruct (moduleFilePath _ _ _ _ _ _ _ _) as [tmp g0]; simpl in *.
    split.
    + split; [exact Hc1|]. split; [|exact Ha1].
      simpl. intros q [x Hx].
      destruct (decide (p = q)) as [<-|Hne]; [done|].
      rewrite lookup_insert_ne in Hx by done. apply Hf1. by eexists.
    + simpl. intros k n q Hk.
      destruct (decide (bound_name a = k)) as [<-|Hne].
      * rewrite lookup_insert_eq in Hk. inversion Hk; subst. by apply Hres1.
      * rewrite lookup_insert_ne in Hk by done. by eapply Hb0.
  - destruct Hg' as (Hc' & Hf' & Ha'). split; [|done].
    split; [exact Hc'|]. split; [|exact Ha'].
    simpl. intros q [x Hx].
    destruct (decide (p = q)) as [<-|Hne]; [done|].
    rewrite lookup_insert_ne in Hx by done. apply Hf'. by eexists.
Qed.

Lemma handleStatement_resolved stm s :
  bindings_resolved env files s →
  bindings_resolved env files
    (handleStatement env files dirPathRel subDirs siblings stm s).
Proof.
  apply (handleStatement_preserves env files dirPathRel subDirs siblings
           (bindings_resolved env files)).
  - intros. by apply handleImport_resolved.
  - intros. by apply handleImportFrom_resolved.
  - done.
  - done.
Qed.

Lemma fold_attr_access_resolved s :
  bindings_resolved env files s → paths_resolved env files (fold_attr_access s).
Proof.
  intros [(Hc & Hf & Ha) Hb]. unfold fold_attr_access.
  split; [done|]. split; [done|]. simpl.
  intros a p [Hin|Hin]%elem_of_union; [by eapply Ha|].
  apply elem_of_set_omap in Hin as ([id attr] & _ & Hr).
  unfold resolve_access in Hr.
  destruct (String.eqb id "self" || String.eqb id "msg"); [done|].
  destruct (imports_by_name s !! id) as [[n q]|] eqn:Hl; [|done].
  inversion Hr; subst. by eapply Hb.
Qed.
End ResolvedPaths.

Lemma processFile_resolved env files dirPath siblings dirPathRel fname subDirs g :
  paths_resolved env files g →
  paths_resolved env files
    (fst (processFile env files dirPath siblings dirPathRel fname subDirs g)).
Proof.
  intros Hg. unfold processFile.
  repeat (case_match; try done).
  simpl. apply fold_attr_access_resolved.
  apply (fold_left_preserves (bindings_resolved env files)).
  - intros s0 stm Hs0. unfold handleTop.
    destruct stm; first
      [ by apply handleImport_resolved
      | by apply handleImportFrom_resolved
      | by apply handleStatement_resolved ].
  - split; [done|]. intros k n p Hk. simpl in Hk. by rewrite lookup_empty in Hk.
Qed.

Lemma collect_resolved env files walk g :
  paths_resolved env files g →
  paths_resolved env files (fst (collect env files walk g)).
Proof.
  unfold collect.
  apply (iter_exn_invariant _ (paths_resolved env files)).
  intros [[dirPath subDirs] siblings] g0 _ Hg0. unfold walk_dir.
  apply (iter_exn_invariant _ (paths_resolved env files)); [|done].
  intros fname g1 _ Hg1. by apply processFile_resolved.
Qed.

(** X10: every candidate file of a run, whether the walk ended or
    raised, exists under the root directory and ends with the source
    extension: the read at line 412 fails only on a file that cannot
    be read. *)
Theorem candidates_resolved env files walk g e m :
  collect env files walk empty_collected = (g, e) →
  m ∈ to_check_imported_modules g →
  isfile env files (PyStr.join (rootDir env) [m]) = true
  ∧ PyStr.endswith ".py" m = true.
Proof.
  intros Hc Hm.
  pose proof (collect_resolved env files walk empty_collected
                (paths_resolved_empty env files)) as (_ & Hf & Ha).
  rewrite Hc in Hf, Ha. simpl in *.
  apply to_check_imported_modules_spec in Hm as [Hm|[a Hm]].
  - by apply Hf.
  - by eapply Ha.
Qed.

Lemma candidates_resolved_witness :
  let r := collect Ex.env_e2e Ex.fs_e2e Ex.walk_e2e empty_collected in
  to_check_imported_modules (fst r) = {["pkg/__init__.py"; "pkg/util.py"]}
  ∧ isfile Ex.env_e2e Ex.fs_e2e (PyStr.join (rootDir Ex.env_e2e) ["pkg/util.py"]) = true
  ∧ PyStr.endswith ".py" "pkg/util.py" = true.
Proof.
  intros r.
  assert (Hkeys : to_check_imported_modules (fst r)
                  = {["pkg/__init__.py"; "pkg/util.py"]}) by (by vm_compute).
  split; [exact Hkeys|].
  refine (candidates_resolved Ex.env_e2e Ex.fs_e2e Ex.walk_e2e (fst r) (snd r)
            "pkg/util.py" _ _).
  - subst r. by destruct (collect _ _ _ _).
  - rewrite Hkeys. set_solver.
Defined.

(** ** What a from-import records *)

Section FromImport.
Context (env : Env) (files : FS) (dirPathRel : string) (subDirs siblings : list string).

Lemma handleImportFrom_name_records module p s a :
  imported_from_by_module_path
    (glob (handleImportFrom_name env files dirPathRel subDirs siblings module p s a))
  = if String.eqb (Ast.name a) "" then imported_from_by_module_path (glob s)
    else <[p := {[Ast.name a]} ∪ default ∅ (imported_from_by_module_path (glob s) !! p)]>
           (imported_from_by_module_path (glob s)).
Proof.
  unfold handleImportFrom_name.
  destruct (String.eqb (Ast.name a) ""); [done|].
  match goal with
  | |- context [moduleFilePath env files ?m _ _ _ _ _] =>
      destruct (moduleFilePath_usage env files m dirPathRel subDirs siblings true
                  (glob s)) as (_ & H2 & _);
      destruct (moduleFilePath env files m dirPathRel subDirs siblings true (glob s))
        as [tmp g1]
  end.
  simpl in *. by rewrite H2.
Qed.

Lemma fold_from_records module p names s X :
  imported_from_by_module_path (glob s) !! p = Some X →
  let s' := fold_left (handleImportFrom_name env files dirPathRel subDirs siblings
                         module p) names s in
  imported_from_by_module_path (glob s') !! p = Some (X ∪ imported_names names)
  ∧ ∀ q, q ≠ p →
      imported_from_by_module_path (glob s') !! q
      = imported_from_by_module_path (glob s) !! q.
Proof.
  revert s X. induction names as [|a names IH]; intros s X HX; simpl.
  - split; [|done]. rewrite HX. f_equal. unfold imported_names. simpl. set_solver.
  - pose proof (handleImportFrom_name_records module p s a) as Hr.
    destruct (String.eqb (Ast.name a) "") eqn:Ha.
    + destruct (IH (handleImportFrom_name env files dirPathRel subDirs siblings
                      module p s a) X) as [H1 H2]; [by rewrite Hr|].
      split.
      * rewrite H1. f_equal. unfold imported_names. simpl.
        apply String.eqb_eq in Ha. rewrite filter_cons_False by (by rewrite Ha; auto).
        done.
      * intros q Hq. rewrite H2 by done. by rewrite Hr.
    + destruct (IH (handleImportFrom_name env files dirPathRel subDirs siblings
                      module p s a) ({[Ast.name a]} ∪ X)) as [H1 H2].
      { rewrite Hr, lookup_insert_eq, HX. done. }
      split.
      * rewrite H1. f_equal. unfold imported_names. simpl.
        apply String.eqb_neq in Ha. rewrite filter_cons_True by done.
        simpl. set_solver.
      * intros q Hq. rewrite H2 by done. rewrite Hr. by rewrite lookup_insert_ne.
Qed.

(** X11: a from-import of a module that resolves to [p] adds every
    name of the statement that is not empty to the set stored under
    [p], keeps what the set held, makes the entry when there was
    none, also for a statement without names, and leaves the sets of
    the other paths as they were. *)
Theorem from_import_records_names (module : string) (names : list Ast.alias)
    (s : fstate) (p : string) :
  fst (moduleFilePath env files module dirPathRel subDirs siblings false (glob s))
  = Some p →
  let s' := handleImportFrom env files dirPathRel subDirs siblings (Some module)
              names s in
  imported_from_by_module_path (glob s') !! p
  = Some (default ∅ (imported_from_by_module_path (glob s) !! p)
            ∪ imported_names names)
  ∧ ∀ q, q ≠ p →
      imported_from_by_module_path (glob s') !! q
      = imported_from_by_module_path (glob s) !! q.
Proof.
  intros Hp s'. subst s'. unfold handleImportFrom.
  destruct (moduleFilePath_usage env files module dirPathRel subDirs siblings false
              (glob s)) as (_ & H2 & _).
  destruct (moduleFilePath env files module dirPathRel subDirs siblings false (glob s))
    as [r g]. simpl in Hp, H2. subst r.
  match goal with
  | |- context [fold_left _ names ?s0] =>
      destruct (fold_from_records module p names s0
                  (default ∅ (imported_from_by_module_path (glob s) !! p)))
        as [H1 H3]
  end.
  { simpl. by rewrite lookup_insert_eq, H2. }
  split; [exact H1|]. intros q Hq. rewrite H3 by done.
  simpl. by rewrite lookup_insert_ne, H2.
Qed.

(** X12: a from-import whose module does not resolve binds no name
    and records no use; a statement without module name stands for
    the referencing directory with every separator replaced by a dot. *)
Theorem unresolved_from_import_ignored (module : option string)
    (names : list Ast.alias) (s : fstate) :
  let m := match module with
           | None => PyStr.replace_char "/" "." dirPathRel
           | Some m => m
           end in
  fst (moduleFilePath env files m dirPathRel subDirs siblings false (glob s)) = None →
  let s' := handleImportFrom env files dirPathRel subDirs siblings module names s in
  imports_by_name s' = imports_by_name s
  ∧ attr_access s' = attr_access s
  ∧ imported_from_by_module_path (glob s') = imported_from_by_module_path (glob s)
  ∧ imported_set (glob s') = imported_set (glob s)
  ∧ all_module_attr_access (glob s') = all_module_attr_access (glob s).
Proof.
  intros m Hp s'. subst s'. unfold handleImportFrom. fold m.
  destruct (moduleFilePath_usage env files m dirPathRel subDirs siblings false
              (glob s)) as (H1 & H2 & H3).
  destruct (moduleFilePath env files m dirPathRel subDirs siblings false (glob s))
    as [r g]. simpl in *. subst r. simpl. done.
Qed.
End FromImport.

Lemma from_import_records_names_witness :
  let s := MkFstate empty_collected ∅ ∅ in
  let s' := handleImportFrom Ex.env_e2e Ex.fs_e2e "" ["pkg"] ["main.py"] (Some "pkg")
              [Ast.Alias "helper" None; Ast.Alias "extra" (Some "e")] s in
  imported_from_by_module_path (glob s') !! "pkg/__init__.py"
  = Some (default ∅ (imported_from_by_module_path (glob s) !! "pkg/__init__.py")
            ∪ imported_names [Ast.Alias "helper" None; Ast.Alias "extra" (Some "e")])
  ∧ ∀ q, q ≠ "pkg/__init__.py" →
      imported_from_by_module_path (glob s') !! q
      = imported_from_by_module_path (glob s) !! q.
Proof.
  intros s.
  apply (from_import_records_names Ex.env_e2e Ex.fs_e2e "" ["pkg"] ["main.py"] "pkg"
           [Ast.Alias "helper" None; Ast.Alias "extra" (Some "e")] s "pkg/__init__.py").
  by vm_compute.
Defined.

Lemma unresolved_from_import_ignored_witness :
  let s := MkFstate empty_collected ∅ ∅ in
  let s' := handleImportFrom Ex.env_e2e Ex.fs_e2e "" ["pkg"] ["main.py"] (Some "os.path")
              [Ast.Alias "join" None] s in
  imports_by_name s' = imports_by_name s
  ∧ attr_access s' = attr_access s
  ∧ imported_from_by_module_path (glob s') = imported_from_by_module_path (glob s)
  ∧ imported_set (glob s') = imported_set (glob s)
  ∧ all_module_attr_access (glob s') = all_module_attr_access (glob s).
Proof.
  intros s.
  apply (unresolved_from_import_ignored Ex.env_e2e Ex.fs_e2e "" ["pkg"] ["main.py"]
           (Some "os.path") [Ast.Alias "join" None] s).
  by vm_compute.
Defined.

(** ** The last loop of [processFile] *)

(** X13: after the loop of lines 362 to 370 the attribute accesses are
    those of before and, for every access [id.attr] of the file with
    [id] bound by an import and neither self nor msg, the attribute
    with the path bound to [id], which is no path when the bound name
    is no module. *)
Theorem fold_attr_access_spec (s : fstate) (attr : string) (p : option string) :
  (attr, p) ∈ all_module_attr_access (fold_attr_access s)
  ↔ (attr, p) ∈ all_module_attr_access (glob s)
    ∨ ∃ id n, (id, attr) ∈ attr_access s
              ∧ id ≠ "self" ∧ id ≠ "msg"
              ∧ imports_by_name s !! id = Some (n, p).
Proof.
  unfold fold_attr_access. simpl. rewrite elem_of_union, elem_of_set_omap.
  split; (intros [?|H]; [by left|right]).
  - destruct H as ([id a] & Hin & Hr). unfold resolve_access in Hr.
    destruct (String.eqb id "self") eqn:H1; [done|].
    destruct (String.eqb id "msg") eqn:H2; [done|]. simpl in Hr.
    destruct (imports_by_name s !! id) as [[n q]|] eqn:Hl; [|done].
    inversion Hr; subst. exists id, n.
    apply String.eqb_neq in H1, H2. done.
  - destruct H as (id & n & Hin & H1 & H2 & Hl).
    exists (id, attr). split; [done|]. unfold resolve_access.
    apply String.eqb_neq in H1, H2. rewrite H1, H2. simpl. by rewrite Hl.
Qed.

(** ** The recorded usage only grows *)

Lemma grows_refl g : grows g g.
Proof.
  split; [done|]. split; [exists []; by rewrite app_nil_r|].
  split; [done|]. split; [|done]. intros p X H. by exists X.
Qed.

Lemma grows_trans g1 g2 g3 : grows g1 g2 → grows g2 g3 → grows g1 g3.
Proof.
  intros (C1 & [e1 L1] & S1 & F1 & A1) (C2 & [e2 L2] & S2 & F2 & A2).
  split; [by etrans|]. split.
  { exists (e1 +++ e2). by rewrite L2, L1, app_assoc. }
  split; [by etrans|]. split; [|by etrans].
  intros p X H. destruct (F1 p X H) as (X' & H' & Hs).
  destruct (F2 p X' H') as (X'' & H'' & Hs'). exists X''. split; [done|]. by etrans.
Qed.

Section Grows.
Context (env : Env) (files : FS).

Lemma moduleFilePath_grows module dirPathRel subDirs siblings silent g :
  grows g (snd (moduleFilePath env files module dirPathRel subDirs siblings silent g)).
Proof.
  unfold moduleFilePath.
  destruct (cache g !! _) as [r|] eqn:Hl; [apply grows_refl|].
  destruct (moduleFilePath_body _ _ _ _ _ _ _) as [r evs]. simpl.
  split; [by apply insert_subseteq|]. split; [by exists evs|].
  split; [done|]. split; [|done]. intros p X H. by exists X.
Qed.

Context (dirPathRel : string) (subDirs siblings : list string) (g0 : collected).

Lemma handleImport_grows names s :
  grows g0 (glob s) →
  grows g0 (glob (handleImport env files dirPathRel subDirs siblings names s)).
Proof.
  unfold handleImport. revert s.
  apply (fold_left_preserves (fun s => grows g0 (glob s))).
  intros s a Hs. unfold handleImport_name.
  pose proof (moduleFilePath_grows (Ast.name a) dirPathRel subDirs siblings false
                (glob s)) as Hg.
  destruct (moduleFilePath _ _ _ _ _ _ _ _) as [[p|] g]; simpl in *.
  - eapply grows_trans; [exact Hs|]. eapply grows_trans; [exact Hg|].
    split; [done|]. split; [exists []; by rewrite app_nil_r|].
    split; [set_solver|]. split; [|done]. intros q X H. by exists X.
  - by eapply grows_trans.
Qed.

Lemma insert_from_grows p Y g :
  default ∅ (imported_from_by_module_path g !! p) ⊆ Y →
  grows g (MkCollected (cache g) (clog g) (imported_set g)
             (<[p := Y]> (imported_from_by_module_path g))
             (all_module_attr_access g)).
Proof.
  intros HY. split; [done|]. split; [exists []; by rewrite app_nil_r|].
  split; [done|]. split; [|done]. simpl. intros q X H.
  destruct (decide (p = q)) as [<-|Hne].
  - rewrite lookup_insert_eq. exists Y. split; [done|]. by rewrite H in HY.
  - rewrite lookup_insert_ne by done. by exists X.
Qed.

Lemma handleImportFrom_grows module names s :
  grows g0 (glob s) →
  grows g0 (glob (handleImportFrom env files dirPathRel subDirs siblings module names s)).
Proof.
  intros Hs. unfold handleImportFrom.
  match goal with
  | |- context [moduleFilePath env files ?m _ _ _ _ _] =>
      pose proof (moduleFilePath_grows m dirPathRel subDirs siblings false (glob s))
        as Hg;
      destruct (moduleFilePath env files m dirPathRel subDirs siblings false (glob s))
        as [[p|] g]; simpl in *; [|by eapply grows_trans]
  end.
  apply (fold_left_preserves (fun s => grows g0 (glob s))).
  - intros s0 a Hs0. unfold handleImportFrom_name.
    destruct (String.eqb (Ast.name a) ""); [done|].
    match goal with
    | |- context [moduleFilePath env files ?m _ _ _ _ _] =>
        pose proof (moduleFilePath_grows m dirPathRel subDirs siblings true (glob s0))
          as Hg0;
        destruct (moduleFilePath env files m dirPathRel subDirs siblings true (glob s0))
          as [tmp g1]; simpl in *
    end.
    eapply grows_trans; [exact Hs0|]. eapply grows_trans; [exact Hg0|].
    unfold add_import_from. apply insert_from_grows. set_solver.
  - simpl. eapply grows_trans; [exact Hs|]. eapply grows_trans; [exact Hg|].
    by apply insert_from_grows.
Qed.

Lemma handleStatement_grows stm s :
  grows g0 (glob s) →
  grows g0 (glob (handleStatement env files dirPathRel subDirs siblings stm s)).
Proof.
  apply (handleStatement_preserves env files dirPathRel subDirs siblings
           (fun s => grows g0 (glob s))).
  - intros. by apply handleImport_grows.
  - intros. by apply handleImportFrom_grows.
  - done.
  - intros s0 Hs0. eapply grows_trans; [exact Hs0|]. unfold log_unknown. simpl.
    split; [done|]. split; [by eexists|].
    split; [done|]. split; [|done]. intros q X H. by exists X.
Qed.
End Grows.

Lemma processFile_grows env files dirPath siblings dirPathRel fname subDirs g :
  grows g (fst (processFile env files dirPath siblings dirPathRel fname subDirs g)).
Proof.
  unfold processFile.
  repeat (case_match; try apply grows_refl).
  - simpl. unfold log_collected.
    split; [done|]. split; [by eexists|].
    split; [done|]. split; [|done]. intros q X Hq. by exists X.
  - simpl.
    match goal with
    | |- grows g (fold_attr_access ?s) =>
        assert (Hs : grows g (glob s))
    end.
    { apply (fold_left_preserves (fun s => grows g (glob s))); [|apply grows_refl].
      intros s0 stm Hs0. unfold handleTop.
      destruct stm; first
        [ by apply handleImport_grows
        | by apply handleImportFrom_grows
        | by apply handleStatement_grows ]. }
    eapply grows_trans; [exact Hs|]. unfold fold_attr_access.
    split; [done|]. split; [exists []; by rewrite app_nil_r|].
    split; [done|]. split; [|set_solver]. intros q X Hq. by exists X.
Qed.

(** X14: the walk only adds: whether it ends or raises, the memo
    table, the imported names, the names from-imported from each path
    and the attribute accesses that the globals held are still held,
    and the output is the one of before with lines after it. *)
Theorem collect_grows env files walk g :
  grows g (fst (collect env files walk g)).
Proof.
  unfold collect.
  apply (iter_exn_invariant _ (grows g)); [|apply grows_refl].
  intros [[dirPath subDirs] siblings] g0 _ Hg0. unfold walk_dir.
  apply (iter_exn_invariant _ (grows g)); [|done].
  intros fname g1 _ Hg1. eapply grows_trans; [exact Hg1|].
  apply processFile_grows.
Qed.

(** ** Files without import statements *)



Section NoImports.
Context (env : Env) (files : FS) (dirPathRel : string) (subDirs siblings : list string).

Local Abbreviation hs := (handleStatement env files dirPathRel subDirs siblings).
Local Abbreviation hsl := (handleStatementList env files dirPathRel subDirs siblings).



End NoImports.




(** ** [find__all__], continued *)

Lemma constant_values_map vs :
  constant_values (map Ast.Constant vs) = inr vs.
Proof. induction vs as [|v vs IH]; simpl; [done|]. by rewrite IH. Qed.

Lemma find_in_body_decl_not_none stm rest :
  export_decl stm = true → find_in_body (stm :: rest) ≠ inr None.
Proof.
  intros Hd. destruct stm; try done.
  destruct targets as [|target targets]; [done|].
  destruct target; try done.
  simpl in Hd. simpl. rewrite Hd.
  rename select Ast.node into v. destruct v; try done.
  destruct (Nat.eqb _ _); [|done].
  by destruct (constant_values _).
Qed.

(** X16: on a module whose assignments all have a target,
    [find__all__] returns nothing exactly when no top-level statement
    is an assignment whose first target is the name [__all__]. *)
Theorem find__all___none_iff (code : module_ast) :
  Forall (fun stm => no_target stm = false) (body code) →
  find__all__ code = inr None
  ↔ Forall (fun stm => export_decl stm = false) (body code).
Proof.
  unfold find__all__. induction 1 as [|stm rest Ht _ IH].
  - split; [constructor|done].
  - destruct (export_decl stm) eqn:Hd.
    + split.
      * intros H. by apply find_in_body_decl_not_none in H.
      * intros H. inversion H; subst. congruence.
    + change (stm :: rest) with ([stm] +++ rest) at 1.
      rewrite (find_in_body_skip [stm] rest) by (by repeat constructor).
      rewrite IH. split.
      * intros H. by constructor.
      * intros H. by inversion H.
Qed.

Lemma find__all___none_iff_witness :
  find__all__ Ex.plain_module = inr None
  ↔ Forall (fun stm => export_decl stm = false) (body Ex.plain_module).
Proof.
  apply (find__all___none_iff Ex.plain_module). by repeat constructor.
Defined.

(** X17: [find__all__] returns the first top-level assignment to
    [__all__] with the values of its list literal in their order,
    whatever follows it. *)
Theorem find__all___first_declaration (before after : list Ast.node)
    (vs : list constant) :
  Forall (fun stm => export_decl stm = false ∧ no_target stm = false) before →
  let stm := Ast.Assign [Ast.Name "__all__"] (Ast.List (map Ast.Constant vs)) in
  find__all__ (Module_ (before +++ stm :: after)) = inr (Some (stm, vs)).
Proof.
  intros Hb stm. unfold find__all__. simpl.
  rewrite find_in_body_skip by done.
  subst stm. simpl. by rewrite constant_values_map.
Qed.

Lemma find__all___first_declaration_witness :
  let stm := Ast.Assign [Ast.Name "__all__"] (Ast.List (map Ast.Constant [CStr "a"])) in
  find__all__
    (Module_ ([Ast.Expr (Ast.Constant (CStr "doc")); Ast.Import [Ast.Alias "os" None]]
              +++ stm :: [Ast.Assign [Ast.Name "__all__"] (Ast.List [])]))
  = inr (Some (stm, [CStr "a"])).
Proof.
  apply (find__all___first_declaration
           [Ast.Expr (Ast.Constant (CStr "doc")); Ast.Import [Ast.Alias "os" None]]
           [Ast.Assign [Ast.Name "__all__"] (Ast.List [])] [CStr "a"]).
  by repeat constructor.
Defined.

(** ** The aggregated maps, continued *)

(** X18: the attribute map holds under a path exactly the attributes
    accessed on that path, and the candidate files are exactly the
    paths that are from-imported from or attribute-accessed. *)
Theorem aggregated_maps_spec (g : collected) (module_fpath : string) :
  (∀ attr,
     attr ∈ names2 (module_attr_access_by_fpath (all_module_attr_access g)) module_fpath
     ↔ (attr, Some module_fpath) ∈ all_module_attr_access g)
  ∧ (module_fpath ∈ to_check_imported_modules g
     ↔ is_Some (imported_from_by_module_path g !! module_fpath)
       ∨ ∃ attr, (attr, Some module_fpath) ∈ all_module_attr_access g).
Proof.
  split.
  - intros attr. apply module_attr_access_by_fpath_spec.
  - apply to_check_imported_modules_spec.
Qed.

(** ** The order of the rounds *)

Lemma insert_sorted_sorted x l :
  StronglySorted String.le l → StronglySorted String.le (PyStr.insert_sorted x l).
Proof.
  induction 1 as [|y l Hl IH Hy]; simpl.
  - by repeat constructor.
  - destruct (String.leb x y) eqn:Hxy.
    + constructor; [by constructor|].
      constructor.
      * unfold String.le. by rewrite Hxy.
      * eapply Forall_impl; [exact Hy|]. intros z Hz.
        etrans; [|exact Hz]. unfold String.le. by rewrite Hxy.
    + constructor; [done|].
      rewrite insert_sorted_perm. constructor; [|done].
      destruct (total String.le x y) as [H|H]; [|done].
      unfold String.le in H. by rewrite Hxy in H.
Qed.

Theorem sorted_ascending l :
  StronglySorted String.le (PyStr.sorted l) ∧ PyStr.sorted l ≡ₚ l.
Proof.
  split; [|apply sorted_perm].
  induction l as [|x l IH]; [constructor|].
  unfold PyStr.sorted in *. simpl. by apply insert_sorted_sorted.
Qed.

(** X19: the reconciler visits the candidate files in ascending order
    of their paths, each once, and no other file. *)
Theorem candidates_in_order env imported_from attr_by_fpath to_check st :
  let order := PyStr.sorted (elements to_check) in
  reconcile_all env imported_from attr_by_fpath to_check st
  = iter_exn (reconcile_file env imported_from attr_by_fpath) order st
  ∧ StronglySorted String.le order
  ∧ NoDup order
  ∧ ∀ m, m ∈ order ↔ m ∈ to_check.
Proof.
  intros order. split; [done|]. split; [apply sorted_ascending|]. split.
  - subst order. rewrite sorted_perm. apply NoDup_elements.
  - intros m. subst order. by rewrite sorted_perm, elem_of_elements.
Qed.

(** ** Rounds of the reconciler, continued *)

(** X20: a round that raises has printed nothing and written nothing. *)
Theorem raising_round_changes_nothing (env : Env)
    (imported_from attr_by_fpath : gmap string (gset string))
    (m : string) (st st' : rstate) (ex : exn) :
  reconcile_file env imported_from attr_by_fpath m st = (st', Some ex) →
  quiet st st' [].
Proof.
  unfold reconcile_file. intros H.
  destruct (read_text env (fs st) _) as [text|];
    [|inversion H; subst; apply quiet_refl].
  destruct (is_excluded env m); [by inversion H|].
  destruct (bool_decide _); [by inversion H|].
  destruct (parse env text) as [err|code]; [by inversion H|].
  unfold reconcile_parsed in H.
  destruct (find__all__ code) as [ex'|found];
    [inversion H; subst; apply quiet_refl|].
  cbv zeta in H.
  destruct (bool_decide (_ = ∅)); [by inversion H|].
  destruct (bool_decide (is_Some found)).
  - destruct (PyRepr.sorted_set _) as [ex'|symbols].
    { inversion H; subst. by repeat split; simpl; rewrite ?app_nil_r. }
    unfold emit in H. destruct (Nat.eqb _ _); by inversion H.
  - unfold emit in H. destruct (Nat.eqb _ _); [by inversion H|]. simpl in H.
    destruct (read_text env _ m); inversion H; subst.
    by repeat split; simpl; rewrite ?app_nil_r.
Qed.

Lemma raising_round_witness :
  quiet (Ex.start Ex.fs_decls)
    (fst (reconcile_file Ex.env_decls {["bad.py" := {["a"]}]} ∅ "bad.py"
            (Ex.start Ex.fs_decls))) [].
Proof.
  apply (raising_round_changes_nothing Ex.env_decls {["bad.py" := {["a"]}]} ∅ "bad.py"
           (Ex.start Ex.fs_decls) _ AssertionError).
  by vm_compute.
Defined.

Section ReconcilerMore.
Context (env : Env) (imported_from attr_by_fpath : gmap string (gset string)).

(** A round keeps the set of files and the set of directories. *)
Lemma reconcile_file_domain m st :
  let st' := fst (reconcile_file env imported_from attr_by_fpath m st) in
  dom (fs_files (fs st')) = dom (fs_files (fs st))
  ∧ fs_dirs (fs st') = fs_dirs (fs st).
Proof.
  destruct (reconcile_file env imported_from attr_by_fpath m st) as [st' e] eqn:Hrun.
  destruct (reconcile_file_outcome env imported_from attr_by_fpath m st st' e Hrun)
    as (current & [(evs & (Hf & _) & _)|(text & Hr & Hf & _)]); simpl; rewrite Hf.
  - done.
  - split; [|done]. unfold write_text. simpl. rewrite dom_insert_L.
    unfold read_text in Hr.
    destruct (fs_files (fs st) !! abspath env m) as [o|] eqn:Hl; [|done].
    apply (elem_of_dom_2 (fs_files (fs st))) in Hl. set_solver.
Qed.

Lemma reconcile_file_modified m st :
  let st' := fst (reconcile_file env imported_from attr_by_fpath m st) in
  modifiedFiles st' ⊆ {[m]} ∪ modifiedFiles st
  ∧ modifiedFiles st ⊆ modifiedFiles st'.
Proof.
  destruct (reconcile_file env imported_from attr_by_fpath m st) as [st' e] eqn:Hrun.
  destruct (reconcile_file_outcome env imported_from attr_by_fpath m st st' e Hrun)
    as (current & [(evs & (_ & Hm & _) & _)|(text & _ & _ & Hm & _)]); simpl;
    rewrite Hm; set_solver.
Qed.

Lemma reconcile_all_domain to_check st :
  let st' := fst (reconcile_all env imported_from attr_by_fpath to_check st) in
  dom (fs_files (fs st')) = dom (fs_files (fs st))
  ∧ fs_dirs (fs st') = fs_dirs (fs st)
  ∧ modifiedFiles st' ⊆ to_check ∪ modifiedFiles st.
Proof.
  unfold reconcile_all.
  apply (iter_exn_invariant _
           (fun s => dom (fs_files (fs s)) = dom (fs_files (fs st))
                     ∧ fs_dirs (fs s) = fs_dirs (fs st)
                     ∧ modifiedFiles s ⊆ to_check ∪ modifiedFiles st));
    [|split; [done|split; [done|set_solver]]].
  intros m s0 Hm (H1 & H2 & H3).
  rewrite sorted_perm, elem_of_elements in Hm.
  destruct (reconcile_file_domain m s0) as [D1 D2].
  destruct (reconcile_file_modified m s0) as [M1 _].
  split; [congruence|]. split; [congruence|]. set_solver.
Qed.

(** The names of a required set beyond the declared ones are names
    used elsewhere and never the wildcard marker. *)
Lemma required_new_names files m current c :
  c ∈ required_set env imported_from attr_by_fpath files m current ∖ current →
  ∃ name, c = CStr name ∧ name ≠ "*"
          ∧ ((name ∈ names1 imported_from m ∧ shadowed env files m name = false)
             ∨ name ∈ names2 attr_by_fpath m).
Proof.
  unfold required_set. set_unfold.
  intros [[[[?|(n & -> & Hneg & Hin)]|(n & -> & Hin)] Hstar] Hcur]; [done| |].
  - exists n. split; [done|]. split; [congruence|]. left. split; [done|].
    by destruct (shadowed env files m n).
  - exists n. split; [done|]. split; [congruence|]. by right.
Qed.
End ReconcilerMore.

(** X21: the list that a round prints as missing or writes as the new
    declaration holds each name once, never the wildcard marker, and
    only names from-imported from the module and not shadowed by a
    submodule or attribute-accessed on it. *)
Theorem written_names_are_used (env : Env)
    (imported_from attr_by_fpath : gmap string (gset string))
    (m : string) (st st' : rstate) (e : option exn) :
  enumerates env →
  reconcile_file env imported_from attr_by_fpath m st = (st', e) →
  (∃ evs, quiet st st' evs
          ∧ ∀ m' l, AddToAll m' l ∈ evs →
              used_names env imported_from attr_by_fpath (fs st) m l)
  ∨ (∃ l text, rewrote env m st st' l text
               ∧ used_names env imported_from attr_by_fpath (fs st) m l).
Proof.
  intros Henum Hrun.
  assert (Hgood : ∀ current,
            used_names env imported_from attr_by_fpath (fs st) m
              (list_of_set env m
                 (required_set env imported_from attr_by_fpath (fs st) m current
                  ∖ current))).
  { intros current. split.
    - rewrite (Henum m _). apply NoDup_elements.
    - intros c. rewrite (Henum m _), elem_of_elements.
      apply required_new_names. }
  destruct (reconcile_file_outcome env imported_from attr_by_fpath m st st' e Hrun)
    as (current & [(evs & Hq & Hev)|(text & Hw)]).
  - left. exists evs. split; [done|]. intros m' l Hin.
    destruct (Hev m' l Hin) as [_ ->]. apply Hgood.
  - right. eexists _, text. split; [done|]. apply Hgood.
Qed.

Lemma written_names_are_used_witness :
  let imported_from : gmap string (gset string) := {["zed.py" := {["a"; "b"]}]} in
  let attr_by_fpath : gmap string (gset string) := {["zed.py" := {["c"]}]} in
  let st := Ex.start Ex.fs_decls in
  let r := reconcile_file Ex.env_decls imported_from attr_by_fpath "zed.py" st in
  (∃ evs, quiet st (fst r) evs
          ∧ ∀ m' l, AddToAll m' l ∈ evs →
              used_names Ex.env_decls imported_from attr_by_fpath (fs st) "zed.py" l)
  ∨ (∃ l text, rewrote Ex.env_decls "zed.py" st (fst r) l text
               ∧ used_names Ex.env_decls imported_from attr_by_fpath (fs st) "zed.py" l).
Proof.
  intros imported_from attr_by_fpath st r.
  refine (written_names_are_used Ex.env_decls imported_from attr_by_fpath "zed.py" st
            (fst r) (snd r) _ _).
  - intros module_fpath X. reflexivity.
  - subst r. by destruct (reconcile_file _ _ _ _ _).
Defined.

(** X22: a run creates and deletes no file and no directory, and the
    files it records as modified are candidate files. *)
Theorem run_keeps_file_set (env : Env) (files : FS)
    (walk : list (string * list string * list string))
    (g : collected) (st : rstate) (e : option exn) :
  run env files walk = (g, st, e) →
  dom (fs_files (fs st)) = dom (fs_files files)
  ∧ fs_dirs (fs st) = fs_dirs files
  ∧ modifiedFiles st ⊆ to_check_imported_modules g.
Proof.
  unfold run. intros Hrun.
  destruct (collect env files walk empty_collected) as [g0 [ex|]].
  - inversion Hrun; subst. simpl. set_solver.
  - destruct (reconcile_all _ _ _ _ _) as [st0 e0] eqn:Hrec.
    inversion Hrun; subst.
    pose proof (reconcile_all_domain env (imported_from_by_module_path g)
                  (module_attr_access_by_fpath (all_module_attr_access g))
                  (to_check_imported_modules g) (MkRstate files (clog g) ∅ ∅)) as H.
    rewrite Hrec in H. simpl in H. destruct H as (H1 & H2 & H3).
    split; [done|]. split; [done|]. set_solver.
Qed.

Lemma run_keeps_file_set_witness :
  let r := run Ex.env_e2e Ex.fs_e2e Ex.walk_e2e in
  dom (fs_files (fs (snd (fst r)))) = dom (fs_files Ex.fs_e2e)
  ∧ fs_dirs (fs (snd (fst r))) = fs_dirs Ex.fs_e2e
  ∧ modifiedFiles (snd (fst r)) ⊆ to_check_imported_modules (fst (fst r)).
Proof.
  intros r.
  apply (run_keeps_file_set Ex.env_e2e Ex.fs_e2e Ex.walk_e2e (fst (fst r))
           (snd (fst r)) (snd r)).
  subst r. by destruct (run _ _ _) as [[? ?] ?].
Defined.

(** X23: a round on a module whose declared list is exactly its usage
    and holds no wildcard marker prints nothing and writes nothing. *)
Theorem matching_declaration_prints_nothing (env : Env)
    (imported_from attr_by_fpath : gmap string (gset string))
    (m : string) (st : rstate) (text : string) (code : module_ast)
    (stm : Ast.node) (_all : list constant) :
  read_text env (fs st) (PyStr.join (rootDir env) [m]) = Some text →
  is_excluded env m = false →
  hd "" (PyStr.split_on "/" m) ∉ exclude_toplevel_module env →
  parse env text = inr code →
  find__all__ code = inr (Some (stm, _all)) →
  list_to_set _all = used_set imported_from attr_by_fpath m →
  CStr "*" ∉ _all →
  ∃ st', reconcile_file env imported_from attr_by_fpath m st = (st', None)
         ∧ quiet st st' [].
Proof.
  intros Hr He Ht Hp Hf Heq Hstar.
  rewrite (reconcile_file_parsed _ _ _ _ _ text code) by done.
  unfold reconcile_parsed. rewrite Hf. cbv zeta.
  set (current := list_to_set _all : gset constant) in *.
  assert (Hreq : required_set env imported_from attr_by_fpath (fs st) m current
                 = current).
  { assert (Hused : ∀ n, n ∈ names1 imported_from m ∪ names2 attr_by_fpath m →
                         CStr n ∈ current).
    { intros n Hn. rewrite Heq. unfold used_set. apply elem_of_map. by exists n. }
    assert (Hstar' : CStr "*" ∉ current).
    { subst current. by rewrite elem_of_list_to_set. }
    unfold required_set. apply set_eq. intros x. set_unfold. split.
    - intros [[[?|(n & -> & _ & Hn)]|(n & -> & Hn)] _]; [done| |];
        apply Hused; set_solver.
    - intros Hx. split; [by left; left|]. by intros ->. }
  rewrite Hreq.
  destruct (bool_decide (current = ∅)).
  { eexists. split; [done|]. by repeat split; simpl; rewrite ?app_nil_r. }
  rewrite (bool_decide_eq_true_2 (is_Some (Some (stm, _all)))) by eauto.
  assert (Hun : unused_set imported_from attr_by_fpath m current = ∅).
  { unfold unused_set. rewrite <- Heq. set_solver. }
  rewrite Hun. unfold PyRepr.sorted_set. rewrite elements_empty. simpl.
  unfold emit. rewrite Nat.eqb_refl.
  eexists. split; [done|]. by repeat split; simpl; rewrite ?app_nil_r.
Qed.

Lemma matching_declaration_witness :
  ∃ st',
    reconcile_file Ex.env_lib {["lib.py" := {["x"]}]} {["lib.py" := {["y"]}]} "lib.py"
      (Ex.start Ex.fs_lib) = (st', None)
    ∧ quiet (Ex.start Ex.fs_lib) st' [].
Proof.
  refine (matching_declaration_prints_nothing Ex.env_lib {["lib.py" := {["x"]}]}
            {["lib.py" := {["y"]}]} "lib.py" (Ex.start Ex.fs_lib)
            "__all__ = ['x', 'y']" Ex.xy_decl
            (Ast.Assign [Ast.Name "__all__"]
               (Ast.List [Ast.Constant (CStr "x"); Ast.Constant (CStr "y")]))
            [CStr "x"; CStr "y"] _ _ _ _ _ _ _).
  - by vm_compute.
  - reflexivity.
  - vm_compute. set_solver.
  - reflexivity.
  - reflexivity.
  - by vm_compute.
  - set_solver.
Defined.

Lemma required_with_wildcard env imported_from attr_by_fpath files m
    (current : gset constant) c :
  CStr "*" ∈ current →
  required_set env imported_from attr_by_fpath files m current ∖ current = {[c]} →
  size (required_set env imported_from attr_by_fpath files m current) = size current.
Proof.
  intros Hstar Hone.
  set (R := required_set env imported_from attr_by_fpath files m current) in *.
  assert (HR : R = {[c]} ∪ (current ∖ {[CStr "*"]})).
  { apply set_eq. intros x. split.
    - intros Hx. destruct (decide (x ∈ current)) as [Hc|Hc].
      + apply elem_of_union. right. apply elem_of_difference. split; [done|].
        subst R. unfold required_set in Hx. set_solver.
      + apply elem_of_union. left. rewrite <- Hone. set_solver.
    - intros [Hx|Hx]%elem_of_union.
      + rewrite <- Hone in Hx. set_solver.
      + subst R. unfold required_set. set_solver. }
  assert (Hc : c ∉ current).
  { assert (c ∈ R ∖ current) by (rewrite Hone; set_solver). set_solver. }
  rewrite HR, size_union by set_solver.
  rewrite size_singleton, size_difference by set_solver.
  rewrite size_singleton.
  assert (size current ≠ 0).
  { intros H0. apply size_empty_iff in H0. set_solver. }
  lia.
Qed.

(** X24: the test of line 457 compares the sizes of the two sets:
    when the declared list holds the wildcard marker and exactly one
    used name is missing from it, the sizes agree and the round ends
    without the missing name printed; it prints the unused symbols
    only. *)
Theorem wildcard_declared_hides_one_missing (env : Env)
    (imported_from attr_by_fpath : gmap string (gset string))
    (m : string) (st : rstate) (text : string) (code : module_ast)
    (stm : Ast.node) (_all : list constant) (c : constant) :
  read_text env (fs st) (PyStr.join (rootDir env) [m]) = Some text →
  is_excluded env m = false →
  hd "" (PyStr.split_on "/" m) ∉ exclude_toplevel_module env →
  parse env text = inr code →
  find__all__ code = inr (Some (stm, _all)) →
  Forall (fun c => ∃ s, c = CStr s) _all →
  CStr "*" ∈ _all →
  required_set env imported_from attr_by_fpath (fs st) m (list_to_set _all)
    ∖ list_to_set _all = {[c]} →
  ∃ st' symbols,
    reconcile_file env imported_from attr_by_fpath m st = (st', None)
    ∧ quiet st st' (map (UnusedSymbol m) symbols).
Proof.
  intros Hr He Ht Hp Hf Hstr Hstar Hone.
  set (current := list_to_set _all : gset constant) in *.
  assert (Hsz : size (required_set env imported_from attr_by_fpath (fs st) m current)
                = size current).
  { apply (required_with_wildcard _ _ _ _ _ _ c); [|done].
    subst current. by apply elem_of_list_to_set. }
  destruct (sorted_set_strings (unused_set imported_from attr_by_fpath m current))
    as (symbols & Hsorted & _).
  { unfold unused_set. intros x [Hx _]%elem_of_difference. subst current.
    apply elem_of_list_to_set in Hx.
    by apply (proj1 (Forall_forall _ _) Hstr). }
  rewrite (reconcile_file_parsed _ _ _ _ _ text code) by done.
  unfold reconcile_parsed. rewrite Hf. cbv zeta. fold current.
  rewrite (bool_decide_eq_false_2 (_ = ∅)).
  2: { intros H0. assert (c ∈ (∅ : gset constant)); [|set_solver].
       rewrite <- H0. assert (c ∈ required_set env imported_from attr_by_fpath
                                     (fs st) m current ∖ current)
         by (rewrite Hone; set_solver). set_solver. }
  rewrite (bool_decide_eq_true_2 (is_Some (Some (stm, _all)))) by eauto.
  rewrite Hsorted. unfold emit. rewrite Hsz, Nat.eqb_refl.
  eexists _, symbols. split; [reflexivity|]. by repeat split.
Qed.

Lemma wildcard_declared_witness :
  ∃ st' symbols,
    reconcile_file Ex.env_star {["lib.py" := {["x"; "y"]}]} ∅ "lib.py"
      (Ex.start Ex.fs_star) = (st', None)
    ∧ quiet (Ex.start Ex.fs_star) st' (map (UnusedSymbol "lib.py") symbols).
Proof.
  refine (wildcard_declared_hides_one_missing Ex.env_star
            {["lib.py" := {["x"; "y"]}]} ∅ "lib.py" (Ex.start Ex.fs_star)
            "__all__ = ['*', 'x']" Ex.star_decl
            (Ast.Assign [Ast.Name "__all__"]
               (Ast.List [Ast.Constant (CStr "*"); Ast.Constant (CStr "x")]))
            [CStr "*"; CStr "x"] (CStr "y") _ _ _ _ _ _ _ _).
  - by vm_compute.
  - reflexivity.
  - vm_compute. set_solver.
  - reflexivity.
  - reflexivity.
  - repeat constructor; by eexists.
  - set_solver.
  - by vm_compute.
Defined.

(** X25: a run started in the root directory leaves every file that is
    no candidate file as it was. *)
Theorem run_leaves_other_files (env : Env) (files : FS)
    (walk : list (string * list string * list string))
    (g : collected) (st : rstate) (e : option exn) (q : string) :
  at_root env →
  run env files walk = (g, st, e) →
  (∀ m, m ∈ to_check_imported_modules g → q ≠ PyStr.join (rootDir env) [m]) →
  fs_files (fs st) !! q = fs_files files !! q.
Proof.
  intros Hroot Hrun Hq. unfold run in Hrun.
  destruct (collect env files walk empty_collected) as [g0 [ex|]].
  - by inversion Hrun; subst.
  - destruct (reconcile_all _ _ _ _ _) as [st0 e0] eqn:Hrec.
    inversion Hrun; subst.
    pose proof (reconcile_all_frame env (imported_from_by_module_path g)
                  (module_attr_access_by_fpath (all_module_attr_access g))
                  (to_check_imported_modules g) (MkRstate files (clog g) ∅ ∅) q
                  Hroot Hq) as H.
    by rewrite Hrec in H.
Qed.

Lemma run_leaves_other_files_witness :
  let r := run Ex.env_e2e Ex.fs_e2e Ex.walk_e2e in
  to_check_imported_modules (fst (fst r)) = {["pkg/__init__.py"; "pkg/util.py"]}
  ∧ fs_files (fs (snd (fst r))) !! "/proj/main.py"
    = fs_files Ex.fs_e2e !! "/proj/main.py".
Proof.
  intros r.
  assert (Hkeys : to_check_imported_modules (fst (fst r))
                  = {["pkg/__init__.py"; "pkg/util.py"]}) by (by vm_compute).
  split; [exact Hkeys|].
  refine (run_leaves_other_files Ex.env_e2e Ex.fs_e2e Ex.walk_e2e (fst (fst r))
            (snd (fst r)) (snd r) "/proj/main.py" _ _ _).
  - by apply at_root_started_in_root.
  - subst r. by destruct (run _ _ _) as [[? ?] ?].
  - intros m Hm. rewrite Hkeys in Hm.
    apply elem_of_union in Hm as [Hm|Hm]; apply elem_of_singleton in Hm; by subst m.
Defined.

(** ** The text of a written declaration *)





